(** * fastly/kv_store.go: the KV Store client and its cursor paginators

    A shallow embedding of [src/fastly/kv_store.go].  Every function of the
    file is a method of [*Client] (or of a paginator that holds one); the
    HTTP verbs of the client, [decodeBodyMap], [checkResp], [NewHTTPError]
    and the sentinel errors live in other files of the package.  They are
    the collaborators of this development: the verbs and the decoders are
    fields of [Client.t], the remote side is a state of an arbitrary type
    [T] that every verb may read and change, and every invocation of a verb
    is appended to a log, so that "no request is issued" is a statement
    about the log. *)

From Stdlib Require Import ZArith Lia.
From stdpp Require Import base option strings list gmap pretty.

Local Open Scope string_scope.

(** ** Go values *)

(** [map[string]string].  A nil map is [None]; reading a nil map, or a
    key that is not there, gives the zero value. *)
Module GoMap.
Definition t : Type := option (gmap string string).

(** [m[k]] *)
Definition index (m : t) (k : string) : string :=
    match m with
    | None => ""
    | Some g => default "" (g !! k)
    end.

(** [v, ok := m[k]] *)
Definition lookup (m : t) (k : string) : option string :=
    match m with
    | None => None
    | Some g => g !! k
    end.

(** [len(m)] *)
Definition len (m : t) : nat :=
    match m with
    | None => 0
    | Some g => size g
    end.
End GoMap.

(** [strconv.Itoa]: the decimal rendering of an [int]. *)
Definition Itoa (n : Z) : string := pretty n.

(** A run-time panic, and the two ways a call can end.  The only panic
    this file can raise is the dereference of a nil pointer; the
    constructor carries the expression that was being evaluated. *)
Inductive panic : Type :=
| NilDereference (expr : string).

Inductive outcome (A : Type) : Type :=
| Returned (a : A)
| Panicked (p : panic).
Arguments Returned {A} a.
Arguments Panicked {A} p.

(** ** net/http and io *)

(** An [io.Reader] over a response: the bytes it yields, and the error
    it ends with when the read fails half way. *)
Module Reader.
Record t : Type := mk { data : string; failure : option string }.
End Reader.

(** [*http.Response], as far as this file looks into it. *)
Module Response.
Record t : Type := mk { StatusCode : Z; Body : Reader.t }.
End Response.

(** [http.StatusNoContent] *)
Definition StatusNoContent : Z := 204.

(** ** Errors *)

(** Modelled from the spec: the sentinel errors [ErrMissingName],
    [ErrMissingID] and [ErrMissingKey] (errors.go is not under src/; the
    spec calls them the missing-name, missing-id and missing-key errors),
    the HTTP error that wraps a response, and the errors that the
    transport, the decoder or a reader hand over unchanged. *)
Inductive error : Type :=
| ErrMissingName
| ErrMissingID
| ErrMissingKey
| HTTPError (resp : Response.t)
| ExternalError (msg : string).

(** Modelled from the spec: [NewHTTPError] (errors.go is not under src/)
    is the "error constructor that wraps a non-success HTTP response into
    a structured error exposing status code and body". *)
Definition NewHTTPError (resp : Response.t) : error := HTTPError resp.

(** The status an error carries, when it is an HTTP error. *)
Definition errStatus (e : error) : option Z :=
  match e with
  | HTTPError resp => Some (Response.StatusCode resp)
  | _ => None
  end.

(** The response an error carries, when it is an HTTP error. *)
Definition errResponse (e : error) : option Response.t :=
  match e with
  | HTTPError resp => Some resp
  | _ => None
  end.

(** [io.ReadAll] *)
Definition ReadAll (r : Reader.t) : string * option error :=
  (Reader.data r, ExternalError <$> Reader.failure r).

(** ** The structs of kv_store.go *)

(** [time.Time] is kept abstract as a number. *)
Module KVStore.
Record t : Type := mk {
  CreatedAt : option Z;
  ID : string;
  Name : string;
  UpdatedAt : option Z
}.
End KVStore.

Module CreateKVStoreInput.
Record t : Type := mk { Name : string }.
End CreateKVStoreInput.

Module ListKVStoresInput.
Record t : Type := mk { Cursor : string; Limit : Z }.

Definition set_Cursor (c : string) (l : t) : t :=
    {| Cursor := c; Limit := Limit l |}.

(** The receiver is a pointer and the method tests it against nil. *)
Definition formatFilters (l : option t) : GoMap.t :=
    match l with
    | None => None
    | Some l =>
        if (Limit l =? 0)%Z && String.eqb (Cursor l) "" then None
        else
          let m : gmap string string := ∅ in
          let m := if negb (Limit l =? 0)%Z
                   then <["limit" := Itoa (Limit l)]> m else m in
          let m := if negb (String.eqb (Cursor l) "")
                   then <["cursor" := Cursor l]> m else m in
          Some m
    end.
End ListKVStoresInput.

Module ListKVStoresResponse.
Record t : Type := mk { Data : list KVStore.t; Meta : GoMap.t }.
End ListKVStoresResponse.

Module GetKVStoreInput.
Record t : Type := mk { ID : string }.
End GetKVStoreInput.

Module DeleteKVStoreInput.
Record t : Type := mk { ID : string }.
End DeleteKVStoreInput.

Module ListKVStoreKeysInput.
Record t : Type := mk { Cursor : string; ID : string; Limit : Z }.

Definition set_Cursor (c : string) (l : t) : t :=
    {| Cursor := c; ID := ID l; Limit := Limit l |}.

Definition formatFilters (l : option t) : GoMap.t :=
    match l with
    | None => None
    | Some l =>
        if (Limit l =? 0)%Z && String.eqb (Cursor l) "" then None
        else
          let m : gmap string string := ∅ in
          let m := if negb (Limit l =? 0)%Z
                   then <["limit" := Itoa (Limit l)]> m else m in
          let m := if negb (String.eqb (Cursor l) "")
                   then <["cursor" := Cursor l]> m else m in
          Some m
    end.
End ListKVStoreKeysInput.

Module ListKVStoreKeysResponse.
Record t : Type := mk { Data : list string; Meta : GoMap.t }.
End ListKVStoreKeysResponse.

Module GetKVStoreKeyInput.
Record t : Type := mk { ID : string; Key : string }.
End GetKVStoreKeyInput.

Module InsertKVStoreKeyInput.
Record t : Type := mk { ID : string; Key : string; Value : string }.
End InsertKVStoreKeyInput.

Module DeleteKVStoreKeyInput.
Record t : Type := mk { ID : string; Key : string }.
End DeleteKVStoreKeyInput.

(** ** The client *)

(** [RequestOptions], as far as this file fills it in: the query
    parameters and the body ([None] is a nil reader, [Some v] is
    [io.NopCloser(strings.NewReader(v))]). *)
Module RequestOptions.
Record t : Type := mk { Params : GoMap.t; Body : option string }.

(** [new(RequestOptions)] *)
Definition new : t := {| Params := None; Body := None |}.

(** [ro.Params = p] *)
Definition set_Params (p : GoMap.t) (ro : t) : t :=
  {| Params := p; Body := Body ro |}.
End RequestOptions.

(** One invocation of a verb of the client, with its arguments. *)
Inductive Call : Type :=
| CallGet (path : string) (ro : option RequestOptions.t)
| CallPostJSON (path : string) (i : CreateKVStoreInput.t)
    (ro : option RequestOptions.t)
| CallPut (path : string) (ro : option RequestOptions.t)
| CallDelete (path : string) (ro : option RequestOptions.t).

(** What a verb returns: by the contract of net/http a response when the
    error is nil, and nothing this file looks at otherwise. *)
Inductive result (A : Type) : Type :=
| Ok (a : A)
| Err (e : error).
Arguments Ok {A} a.
Arguments Err {A} e.

Module Client.
(** The collaborators.  [transport] answers a call of a verb from the
    state of the remote side and gives the new state.  [decodeBodyMap]
    fills the pointer it is handed, which is nil before the call, and
    returns an error: the pair is the pointer after the call (still nil
    when the decoder did not set it) and that error, at each of the three
    types it is used at.  [checkResp] is the function of client.go. *)
Record t (T : Type) : Type := mk {
  transport : Call -> T -> result Response.t * T;
  decodeKVStore : Reader.t -> option KVStore.t * option error;
  decodeListKVStoresResponse :
    Reader.t -> option ListKVStoresResponse.t * option error;
  decodeListKVStoreKeysResponse :
    Reader.t -> option ListKVStoreKeysResponse.t * option error;
  checkResp :
    Response.t -> option error -> option Response.t * option error
}.
Arguments transport {T} _ _ _.
Arguments decodeKVStore {T} _ _.
Arguments decodeListKVStoresResponse {T} _ _.
Arguments decodeListKVStoreKeysResponse {T} _ _.
Arguments checkResp {T} _ _ _.
End Client.

(** The world a call runs in: the log of the verbs invoked so far, oldest
    first, and the state of the remote side. *)
Module World.
Record t (T : Type) : Type := mk { calls : list Call; remote : T }.
Arguments mk {T} _ _.
Arguments calls {T} _.
Arguments remote {T} _.
End World.

Section Verbs.
Context {T : Type}.

Definition invoke (c : Client.t T) (k : Call) (w : World.t T)
    : result Response.t * World.t T :=
    let '(r, s) := Client.transport c k (World.remote w) in
    (r, {| World.calls := World.calls w ++ [k]; World.remote := s |}).

Definition Get (c : Client.t T) (path : string)
      (ro : option RequestOptions.t) :=
    invoke c (CallGet path ro).

Definition PostJSON (c : Client.t T) (path : string)
      (i : CreateKVStoreInput.t) (ro : option RequestOptions.t) :=
    invoke c (CallPostJSON path i ro).

Definition Put (c : Client.t T) (path : string)
      (ro : option RequestOptions.t) :=
    invoke c (CallPut path ro).

Definition Delete (c : Client.t T) (path : string)
      (ro : option RequestOptions.t) :=
    invoke c (CallDelete path ro).
End Verbs.

(** ** Store operations *)

Section Operations.
Context {T : Type}.

(** Every function returns the Go results as they are, a pointer as an
    [option] and an [error] as an [option error], next to the world after
    the call. *)

Definition CreateKVStore (c : Client.t T) (i : CreateKVStoreInput.t)
    (w : World.t T) : (option KVStore.t * option error) * World.t T :=
  if String.eqb (CreateKVStoreInput.Name i) "" then
    ((None, Some ErrMissingName), w)
  else
    let path := "/resources/stores/kv" in
    match PostJSON c path i None w with
    | (Err e, w) => ((None, Some e), w)
    | (Ok resp, w) =>
        match Client.decodeKVStore c (Response.Body resp) with
        | (_, Some e) => ((None, Some e), w)
        | (store, None) => ((store, None), w)
        end
    end.

(** [ListKVStores] hands its input pointer to [formatFilters] without
    looking into it, so a nil input is served. *)
Definition ListKVStores (c : Client.t T) (i : option ListKVStoresInput.t)
    (w : World.t T)
    : (option ListKVStoresResponse.t * option error) * World.t T :=
  let path := "/resources/stores/kv" in
  let ro := RequestOptions.new in
  let ro := RequestOptions.set_Params (ListKVStoresInput.formatFilters i) ro in
  match Get c path (Some ro) w with
  | (Err e, w) => ((None, Some e), w)
  | (Ok resp, w) =>
      match Client.decodeListKVStoresResponse c (Response.Body resp) with
      | (_, Some e) => ((None, Some e), w)
      | (output, None) => ((output, None), w)
      end
  end.

Definition GetKVStore (c : Client.t T) (i : GetKVStoreInput.t)
    (w : World.t T) : (option KVStore.t * option error) * World.t T :=
  if String.eqb (GetKVStoreInput.ID i) "" then
    ((None, Some ErrMissingID), w)
  else
    let path := "/resources/stores/kv/" +:+ GetKVStoreInput.ID i in
    match Get c path None w with
    | (Err e, w) => ((None, Some e), w)
    | (Ok resp, w) =>
        match Client.decodeKVStore c (Response.Body resp) with
        | (_, Some e) => ((None, Some e), w)
        | (output, None) => ((output, None), w)
        end
    end.

Definition DeleteKVStore (c : Client.t T) (i : DeleteKVStoreInput.t)
    (w : World.t T) : option error * World.t T :=
  if String.eqb (DeleteKVStoreInput.ID i) "" then
    (Some ErrMissingID, w)
  else
    let path := "/resources/stores/kv/" +:+ DeleteKVStoreInput.ID i in
    match Delete c path None w with
    | (Err e, w) => (Some e, w)
    | (Ok resp, w) =>
        if negb (Response.StatusCode resp =? StatusNoContent)%Z then
          (Some (NewHTTPError resp), w)
        else
          (None, w)
    end.

(** ** Key operations *)

Definition ListKVStoreKeys (c : Client.t T) (i : ListKVStoreKeysInput.t)
    (w : World.t T)
    : (option ListKVStoreKeysResponse.t * option error) * World.t T :=
  if String.eqb (ListKVStoreKeysInput.ID i) "" then
    ((None, Some ErrMissingID), w)
  else
    let path := "/resources/stores/kv/" +:+ ListKVStoreKeysInput.ID i
                +:+ "/keys" in
    let ro := RequestOptions.new in
    let ro := RequestOptions.set_Params
                (ListKVStoreKeysInput.formatFilters (Some i)) ro in
    match Get c path (Some ro) w with
    | (Err e, w) => ((None, Some e), w)
    | (Ok resp, w) =>
        match Client.decodeListKVStoreKeysResponse c (Response.Body resp) with
        | (_, Some e) => ((None, Some e), w)
        | (output, None) => ((output, None), w)
        end
    end.

Definition GetKVStoreKey (c : Client.t T) (i : GetKVStoreKeyInput.t)
    (w : World.t T) : (string * option error) * World.t T :=
  if String.eqb (GetKVStoreKeyInput.ID i) "" then
    (("", Some ErrMissingID), w)
  else if String.eqb (GetKVStoreKeyInput.Key i) "" then
    (("", Some ErrMissingKey), w)
  else
    let path := "/resources/stores/kv/" +:+ GetKVStoreKeyInput.ID i
                +:+ "/keys/" +:+ GetKVStoreKeyInput.Key i in
    match Get c path None w with
    | (Err e, w) => (("", Some e), w)
    | (Ok resp, w) =>
        match ReadAll (Response.Body resp) with
        | (_, Some e) => (("", Some e), w)
        | (output, None) => ((output, None), w)
        end
    end.

Definition InsertKVStoreKey (c : Client.t T) (i : InsertKVStoreKeyInput.t)
    (w : World.t T) : option error * World.t T :=
  if String.eqb (InsertKVStoreKeyInput.ID i) "" then
    (Some ErrMissingID, w)
  else if String.eqb (InsertKVStoreKeyInput.Key i) "" then
    (Some ErrMissingKey, w)
  else
    let path := "/resources/stores/kv/" +:+ InsertKVStoreKeyInput.ID i
                +:+ "/keys/" +:+ InsertKVStoreKeyInput.Key i in
    let ro := {| RequestOptions.Params := None;
                 RequestOptions.Body := Some (InsertKVStoreKeyInput.Value i) |} in
    match Put c path (Some ro) w with
    | (Err e, w) => (Some e, w)
    | (Ok resp, w) => (snd (Client.checkResp c resp None), w)
    end.

Definition DeleteKVStoreKey (c : Client.t T) (i : DeleteKVStoreKeyInput.t)
    (w : World.t T) : option error * World.t T :=
  if String.eqb (DeleteKVStoreKeyInput.ID i) "" then
    (Some ErrMissingID, w)
  else if String.eqb (DeleteKVStoreKeyInput.Key i) "" then
    (Some ErrMissingKey, w)
  else
    let path := "/resources/stores/kv/" +:+ DeleteKVStoreKeyInput.ID i
                +:+ "/keys/" +:+ DeleteKVStoreKeyInput.Key i in
    match Delete c path None w with
    | (Err e, w) => (Some e, w)
    | (Ok resp, w) =>
        if negb (Response.StatusCode resp =? StatusNoContent)%Z then
          (Some (NewHTTPError resp), w)
        else
          (None, w)
    end.

End Operations.

(** ** The paginators *)

(** A paginator is a struct behind a pointer; [Next] changes it in place.
    Here [Next] takes the paginator and the world and gives both back,
    next to the way the call ended.  A slice is a list and the nil slice
    is the empty list.  [input] is the pointer the constructor was given:
    the paginator writes the cursor through it, and it may be nil. *)
Module ListKVStoresPaginator.
Record t (T : Type) : Type := mk {
  client : Client.t T;
  cursor : string;
  err : option error;
  finished : bool;
  input : option ListKVStoresInput.t;
  stores : list KVStore.t
}.
Arguments mk {T} _ _ _ _ _ _.
Arguments client {T} _.
Arguments cursor {T} _.
Arguments err {T} _.
Arguments finished {T} _.
Arguments input {T} _.
Arguments stores {T} _.

Section Methods.
Context {T : Type}.

Definition set_cursor (x : string) (l : t T) : t T :=
  mk (client l) x (err l) (finished l) (input l) (stores l).
Definition set_err (x : option error) (l : t T) : t T :=
  mk (client l) (cursor l) x (finished l) (input l) (stores l).
Definition set_finished (x : bool) (l : t T) : t T :=
  mk (client l) (cursor l) (err l) x (input l) (stores l).
Definition set_input (x : option ListKVStoresInput.t) (l : t T) : t T :=
  mk (client l) (cursor l) (err l) (finished l) x (stores l).
Definition set_stores (x : list KVStore.t) (l : t T) : t T :=
  mk (client l) (cursor l) (err l) (finished l) (input l) x.

(** Next advances the paginator and fetches the next set of kv stores. *)
Definition Next (l : t T) (w : World.t T)
    : outcome bool * t T * World.t T :=
  if finished l then
    (Returned false, set_stores [] l, w)
  else
    match input l with
    | None => (Panicked (NilDereference "l.input.Cursor"), l, w)
    | Some i =>
        let l := set_input (Some (ListKVStoresInput.set_Cursor (cursor l) i)) l in
        let '((o, e), w) := ListKVStores (client l) (input l) w in
        let l := match e with
                 | Some _ => set_finished true (set_err e l)
                 | None => l
                 end in
        match o with
        | None => (Panicked (NilDereference "o.Data"), l, w)
        | Some o =>
            let l := set_stores (ListKVStoresResponse.Data o) l in
            let next := GoMap.index (ListKVStoresResponse.Meta o) "next_cursor" in
            let l := if String.eqb next "" then set_finished true l
                     else set_cursor next l in
            (Returned true, l, w)
        end
    end.

(** Stores returns the current partial list of kv stores. *)
Definition Stores (l : t T) : list KVStore.t := stores l.

(** Err returns any error from the pagination. *)
Definition Err (l : t T) : option error := err l.
End Methods.
End ListKVStoresPaginator.

Module ListKVStoreKeysPaginator.
Record t (T : Type) : Type := mk {
  client : Client.t T;
  cursor : string;
  err : option error;
  finished : bool;
  input : option ListKVStoreKeysInput.t;
  keys : list string
}.
Arguments mk {T} _ _ _ _ _ _.
Arguments client {T} _.
Arguments cursor {T} _.
Arguments err {T} _.
Arguments finished {T} _.
Arguments input {T} _.
Arguments keys {T} _.

Section Methods.
Context {T : Type}.

Definition set_cursor (x : string) (l : t T) : t T :=
  mk (client l) x (err l) (finished l) (input l) (keys l).
Definition set_err (x : option error) (l : t T) : t T :=
  mk (client l) (cursor l) x (finished l) (input l) (keys l).
Definition set_finished (x : bool) (l : t T) : t T :=
  mk (client l) (cursor l) (err l) x (input l) (keys l).
Definition set_input (x : option ListKVStoreKeysInput.t) (l : t T) : t T :=
  mk (client l) (cursor l) (err l) (finished l) x (keys l).
Definition set_keys (x : list string) (l : t T) : t T :=
  mk (client l) (cursor l) (err l) (finished l) (input l) x.

(** Next advanced the paginator. *)
Definition Next (l : t T) (w : World.t T)
    : outcome bool * t T * World.t T :=
  if finished l then
    (Returned false, set_keys [] l, w)
  else
    match input l with
    | None => (Panicked (NilDereference "l.input.Cursor"), l, w)
    | Some i =>
        let i := ListKVStoreKeysInput.set_Cursor (cursor l) i in
        let l := set_input (Some i) l in
        let '((o, e), w) := ListKVStoreKeys (client l) i w in
        let l := match e with
                 | Some _ => set_finished true (set_err e l)
                 | None => l
                 end in
        match o with
        | None => (Panicked (NilDereference "o.Data"), l, w)
        | Some o =>
            let l := set_keys (ListKVStoreKeysResponse.Data o) l in
            let next := GoMap.index (ListKVStoreKeysResponse.Meta o) "next_cursor" in
            let l := if String.eqb next "" then set_finished true l
                     else set_cursor next l in
            (Returned true, l, w)
        end
    end.

(** Err returns any error from the paginator. *)
Definition Err (l : t T) : option error := err l.

(** Keys returns the current set of keys retrieved by the paginator. *)
Definition Keys (l : t T) : list string := keys l.
End Methods.
End ListKVStoreKeysPaginator.

(** NewListKVStoresPaginator creates a new paginator for the given
    ListKVStoresInput. *)
Definition NewListKVStoresPaginator {T : Type} (c : Client.t T)
    (i : option ListKVStoresInput.t) : ListKVStoresPaginator.t T :=
  {| ListKVStoresPaginator.client := c;
     ListKVStoresPaginator.cursor := "";
     ListKVStoresPaginator.err := None;
     ListKVStoresPaginator.finished := false;
     ListKVStoresPaginator.input := i;
     ListKVStoresPaginator.stores := [] |}.

(** NewListKVStoreKeysPaginator returns a new paginator for the provided
    ListKVStoreKeysInput. *)
Definition NewListKVStoreKeysPaginator {T : Type} (c : Client.t T)
    (i : option ListKVStoreKeysInput.t) : ListKVStoreKeysPaginator.t T :=
  {| ListKVStoreKeysPaginator.client := c;
     ListKVStoreKeysPaginator.cursor := "";
     ListKVStoreKeysPaginator.err := None;
     ListKVStoreKeysPaginator.finished := false;
     ListKVStoreKeysPaginator.input := i;
     ListKVStoreKeysPaginator.keys := [] |}.

(** ** Observing a run *)

(** The calls issued between an earlier world and a later one. *)
Definition issued {T : Type} (w w' : World.t T) : list Call :=
  drop (length (World.calls w)) (World.calls w').

Definition callOptions (k : Call) : option RequestOptions.t :=
  match k with
  | CallGet _ ro | CallPostJSON _ _ ro | CallPut _ ro | CallDelete _ ro => ro
  end.

(** The query parameters a call carries. *)
Definition callParams (k : Call) : GoMap.t :=
  match callOptions k with
  | None => None
  | Some ro => RequestOptions.Params ro
  end.

(** The cursor a call submits: its "cursor" query parameter. *)
Definition submittedCursor (k : Call) : string :=
  GoMap.index (callParams k) "cursor".

(** The one call [ListKVStores] issues. *)
Definition storesCall (i : option ListKVStoresInput.t) : Call :=
  CallGet "/resources/stores/kv"
    (Some (RequestOptions.set_Params (ListKVStoresInput.formatFilters i)
             RequestOptions.new)).

(** The one call [ListKVStoreKeys] issues when the ID is there. *)
Definition keysCall (i : ListKVStoreKeysInput.t) : Call :=
  CallGet ("/resources/stores/kv/" +:+ ListKVStoreKeysInput.ID i +:+ "/keys")
    (Some (RequestOptions.set_Params
             (ListKVStoreKeysInput.formatFilters (Some i))
             RequestOptions.new)).

(** The error the two checks of a key operation select: the ID is looked
    at first, the Key after it. *)
Definition missingField (id key : string) : error :=
  if String.eqb id "" then ErrMissingID else ErrMissingKey.

(** The caller's loop, cut after [n] rounds: call [Next], read the page
    accessor, go on unless the call panicked. *)
Fixpoint advanceStores {T : Type} (n : nat) (l : ListKVStoresPaginator.t T)
    (w : World.t T)
    : list (outcome bool * list KVStore.t)
      * ListKVStoresPaginator.t T * World.t T :=
  match n with
  | O => ([], l, w)
  | S n =>
      let '(r, l, w) := ListKVStoresPaginator.Next l w in
      let page := ListKVStoresPaginator.Stores l in
      match r with
      | Panicked _ => ([(r, page)], l, w)
      | Returned _ =>
          let '(rest, l, w) := advanceStores n l w in
          ((r, page) :: rest, l, w)
      end
  end.

(** ** Test doubles *)

(** A scripted transport: the remote state is the list of the answers
    still to give, and every call takes the first one, whatever it asks. *)
Definition scripted (k : Call) (s : list (result Response.t))
    : result Response.t * list (result Response.t) :=
  match s with
  | [] => (Err (ExternalError "script exhausted"), [])
  | r :: s => (r, s)
  end.

(** A decoder by table: the text of the body picks the decoded value. *)
Definition tableDecode {A : Type} (tbl : list (string * A)) (r : Reader.t)
    : option A * option error :=
  match Reader.failure r with
  | Some msg => (None, Some (ExternalError msg))
  | None =>
      match list_find (fun e => String.eqb (fst e) (Reader.data r)) tbl with
      | Some (_, (_, a)) => (Some a, None)
      | None => (None, Some (ExternalError "unexpected end of JSON input"))
      end
  end.

(** [checkResp] accepting every response. *)
Definition acceptAll (resp : Response.t) (e : option error)
    : option Response.t * option error :=
  (Some resp, e).

Definition body (s : string) : Reader.t :=
  {| Reader.data := s; Reader.failure := None |}.

Definition reply (status : Z) (s : string) : result Response.t :=
  Ok {| Response.StatusCode := status; Response.Body := body s |}.

Definition demoStore (id : string) : KVStore.t :=
  {| KVStore.CreatedAt := None; KVStore.ID := id;
     KVStore.Name := "store-" +:+ id; KVStore.UpdatedAt := None |}.

Definition demoMeta (next : string) : GoMap.t :=
  Some {[ "next_cursor" := next ]}.

Definition demoStorePages : list (string * ListKVStoresResponse.t) :=
  [ ("p1", {| ListKVStoresResponse.Data := [demoStore "a"; demoStore "b"];
              ListKVStoresResponse.Meta := demoMeta "c1" |});
    ("p2", {| ListKVStoresResponse.Data := [demoStore "c"];
              ListKVStoresResponse.Meta := demoMeta "c2" |});
    ("p3", {| ListKVStoresResponse.Data := [demoStore "d"];
              ListKVStoresResponse.Meta := demoMeta "" |}) ].

Definition demoKeyPages : list (string * ListKVStoreKeysResponse.t) :=
  [ ("p1", {| ListKVStoreKeysResponse.Data := ["k1"; "k2"];
              ListKVStoreKeysResponse.Meta := demoMeta "c1" |});
    ("p3", {| ListKVStoreKeysResponse.Data := ["k3"];
              ListKVStoreKeysResponse.Meta := None |}) ].

Definition demoClient : Client.t (list (result Response.t)) :=
  {| Client.transport := scripted;
     Client.decodeKVStore := tableDecode [("a", demoStore "a")];
     Client.decodeListKVStoresResponse := tableDecode demoStorePages;
     Client.decodeListKVStoreKeysResponse := tableDecode demoKeyPages;
     Client.checkResp := acceptAll |}.

Definition demoWorld (s : list (result Response.t))
    : World.t (list (result Response.t)) :=
  {| World.calls := []; World.remote := s |}.

(** A decoder that meets the body [null]: it reports no error and leaves
    the pointer it was handed as it was, nil; every other body goes to
    the table. *)
Definition nullDecode {A : Type} (tbl : list (string * A)) (r : Reader.t)
    : option A * option error :=
  if String.eqb (Reader.data r) "null" then (None, None)
  else tableDecode tbl r.

Definition nullClient : Client.t (list (result Response.t)) :=
  {| Client.transport := scripted;
     Client.decodeKVStore := nullDecode [("a", demoStore "a")];
     Client.decodeListKVStoresResponse := nullDecode demoStorePages;
     Client.decodeListKVStoreKeysResponse := nullDecode demoKeyPages;
     Client.checkResp := acceptAll |}.

Module SP := ListKVStoresPaginator.
Module KP := ListKVStoreKeysPaginator.

(** A stores paginator and a keys paginator that have finished on an
    error, with a page and a cursor left over. *)
Definition demoFinishedStores : SP.t (list (result Response.t)) :=
  {| SP.client := demoClient; SP.cursor := "c7";
     SP.err := Some (ExternalError "connection reset"); SP.finished := true;
     SP.input := Some {| ListKVStoresInput.Cursor := "c7";
                         ListKVStoresInput.Limit := 2 |};
     SP.stores := [demoStore "a"] |}.

Definition demoFinishedKeys : KP.t (list (result Response.t)) :=
  {| KP.client := demoClient; KP.cursor := "c7";
     KP.err := Some (ExternalError "connection reset"); KP.finished := true;
     KP.input := Some {| ListKVStoreKeysInput.Cursor := "c7";
                         ListKVStoreKeysInput.ID := "s1";
                         ListKVStoreKeysInput.Limit := 2 |};
     KP.keys := ["k1"] |}.

(** ** Sanity checks of the embedding on concrete runs *)

Example Itoa_examples :
  Itoa 0 = "0" /\ Itoa 25 = "25" /\ Itoa (-7) = "-7" /\ Itoa 1000 = "1000".
Proof. repeat split; reflexivity. Qed.

Example formatFilters_example :
  ListKVStoresInput.formatFilters
    (Some {| ListKVStoresInput.Cursor := "abc"; ListKVStoresInput.Limit := 10 |})
  = Some (<["cursor" := "abc"]> (<["limit" := "10"]> ∅)).
Proof. reflexivity. Qed.

Example ListKVStores_nil_input :
  ListKVStores demoClient None (demoWorld [reply 200 "p3"])
  = ((Some {| ListKVStoresResponse.Data := [demoStore "d"];
              ListKVStoresResponse.Meta := demoMeta "" |}, None),
     {| World.calls := [CallGet "/resources/stores/kv"
                          (Some RequestOptions.new)];
        World.remote := [] |}).
Proof. vm_compute. reflexivity. Qed.

Example GetKVStoreKey_example :
  GetKVStoreKey demoClient
    {| GetKVStoreKeyInput.ID := "s1"; GetKVStoreKeyInput.Key := "k" |}
    (demoWorld [reply 200 "v"])
  = (("v", None),
     {| World.calls := [CallGet "/resources/stores/kv/s1/keys/k" None];
        World.remote := [] |}).
Proof. reflexivity. Qed.

(** ** Further observers and test doubles *)

(** The caller's loop over a keys paginator, cut after [n] rounds. *)
Fixpoint advanceKeys {T : Type} (n : nat) (l : ListKVStoreKeysPaginator.t T)
    (w : World.t T)
    : list (outcome bool * list string)
      * ListKVStoreKeysPaginator.t T * World.t T :=
  match n with
  | O => ([], l, w)
  | S n =>
      let '(r, l, w) := ListKVStoreKeysPaginator.Next l w in
      let page := ListKVStoreKeysPaginator.Keys l in
      match r with
      | Panicked _ => ([(r, page)], l, w)
      | Returned _ =>
          let '(rest, l, w) := advanceKeys n l w in
          ((r, page) :: rest, l, w)
      end
  end.

(** Whether a call of [Next] came back, rather than panicked. *)
Definition returned {A : Type} (r : outcome A) : bool :=
  match r with
  | Returned _ => true
  | Panicked _ => false
  end.

(** The next_cursor a list response carries, read the way [Next] reads it. *)
Definition storesNextCursor (o : ListKVStoresResponse.t) : string :=
  GoMap.index (ListKVStoresResponse.Meta o) "next_cursor".

Definition keysNextCursor (o : ListKVStoreKeysResponse.t) : string :=
  GoMap.index (ListKVStoreKeysResponse.Meta o) "next_cursor".

(** The paths the operations build. *)
Definition storePath (id : string) : string :=
  "/resources/stores/kv/" +:+ id.

Definition keyPath (id key : string) : string :=
  "/resources/stores/kv/" +:+ id +:+ "/keys/" +:+ key.

(** A remote side that keeps what is put: its state maps a path to the
    value stored there.  Put stores the body of the request and answers
    200, Get answers 200 with the stored value, Delete removes it and
    answers 204; Get and Delete of a path that holds nothing come back
    with the HTTP error of a 404, as the verbs of the client do for an
    error status.  PostJSON answers 200 and stores nothing. *)
Definition notFound : Response.t :=
  {| Response.StatusCode := 404; Response.Body := body "" |}.

Definition kvServer (k : Call) (s : gmap string string)
    : result Response.t * gmap string string :=
  match k with
  | CallPut path ro =>
      let v := match ro with
               | Some ro => default "" (RequestOptions.Body ro)
               | None => ""
               end in
      (reply 200 "", <[path := v]> s)
  | CallGet path _ =>
      match s !! path with
      | Some v => (reply 200 v, s)
      | None => (Err (HTTPError notFound), s)
      end
  | CallDelete path _ =>
      match s !! path with
      | Some _ => (reply 204 "", delete path s)
      | None => (Err (HTTPError notFound), s)
      end
  | CallPostJSON _ _ _ => (reply 200 "", s)
  end.

Definition kvClient : Client.t (gmap string string) :=
  {| Client.transport := kvServer;
     Client.decodeKVStore := tableDecode [];
     Client.decodeListKVStoresResponse := tableDecode [];
     Client.decodeListKVStoreKeysResponse := tableDecode [];
     Client.checkResp := acceptAll |}.

Example kvServer_example :
  let i := {| InsertKVStoreKeyInput.ID := "s1"; InsertKVStoreKeyInput.Key := "k";
              InsertKVStoreKeyInput.Value := "v" |} in
  let w := {| World.calls := []; World.remote := (∅ : gmap string string) |} in
  fst (GetKVStoreKey kvClient
         {| GetKVStoreKeyInput.ID := "s1"; GetKVStoreKeyInput.Key := "k" |}
         (snd (InsertKVStoreKey kvClient i w)))
  = ("v", None).
Proof. vm_compute. reflexivity. Qed.

(** * Properties *)

(** ** Helper lemmas *)

Lemma eqb_empty_true (s : string) : s = "" -> String.eqb s "" = true.
Proof. intros ->. reflexivity. Qed.

Lemma eqb_empty_false (s : string) : s <> "" -> String.eqb s "" = false.
Proof. intros H. apply String.eqb_neq. exact H. Qed.

Lemma index_lookup (m : GoMap.t) (k : string) :
  GoMap.index m k = default "" (GoMap.lookup m k).
Proof. destruct m; reflexivity. Qed.

Lemma invoke_spec {T : Type} (c : Client.t T) (k : Call) (w : World.t T) :
  invoke c k w
  = (fst (Client.transport c k (World.remote w)),
     {| World.calls := World.calls w ++ [k];
        World.remote := snd (Client.transport c k (World.remote w)) |}).
Proof. unfold invoke. destruct (Client.transport c k (World.remote w)); reflexivity. Qed.

Lemma issued_nil {T : Type} (w : World.t T) : issued w w = [].
Proof. unfold issued. apply drop_all. Qed.

Lemma issued_app {T : Type} (w : World.t T) (ks : list Call) (s : T) :
  issued w {| World.calls := World.calls w ++ ks; World.remote := s |} = ks.
Proof. unfold issued. simpl. apply drop_app_length. Qed.


(** ** The query filters *)

Section Filters.
Import ListKVStoresInput.

Lemma stores_filters_limit (l : t) :
  GoMap.lookup (formatFilters (Some l)) "limit"
  = if (Limit l =? 0)%Z then None else Some (Itoa (Limit l)).
Proof.
  unfold formatFilters.
  destruct (Z.eqb_spec (Limit l) 0), (String.eqb_spec (Cursor l) "");
    simpl; by simplify_map_eq.
Qed.

Lemma stores_filters_cursor (l : t) :
  GoMap.lookup (formatFilters (Some l)) "cursor"
  = if String.eqb (Cursor l) "" then None else Some (Cursor l).
Proof.
  unfold formatFilters.
  destruct (Z.eqb_spec (Limit l) 0), (String.eqb_spec (Cursor l) "");
    simpl; by simplify_map_eq.
Qed.

Lemma stores_filters_default (l : t) :
  Limit l = 0%Z -> Cursor l = "" -> formatFilters (Some l) = None.
Proof. intros Hl Hc. unfold formatFilters. rewrite Hl, Hc. reflexivity. Qed.
End Filters.

Section KeyFilters.
Import ListKVStoreKeysInput.

Lemma keys_filters_limit (l : t) :
  GoMap.lookup (formatFilters (Some l)) "limit"
  = if (Limit l =? 0)%Z then None else Some (Itoa (Limit l)).
Proof.
  unfold formatFilters.
  destruct (Z.eqb_spec (Limit l) 0), (String.eqb_spec (Cursor l) "");
    simpl; by simplify_map_eq.
Qed.

Lemma keys_filters_cursor (l : t) :
  GoMap.lookup (formatFilters (Some l)) "cursor"
  = if String.eqb (Cursor l) "" then None else Some (Cursor l).
Proof.
  unfold formatFilters.
  destruct (Z.eqb_spec (Limit l) 0), (String.eqb_spec (Cursor l) "");
    simpl; by simplify_map_eq.
Qed.

Lemma keys_filters_default (l : t) :
  Limit l = 0%Z -> Cursor l = "" -> formatFilters (Some l) = None.
Proof. intros Hl Hc. unfold formatFilters. rewrite Hl, Hc. reflexivity. Qed.
End KeyFilters.

(** C7.  For a list input of either kind with Limit 0 and an empty Cursor,
    formatFilters gives the nil map: no query parameter at all, neither
    "limit" nor "cursor".  When Limit is not 0 the "limit" parameter is
    there and equals the decimal rendering of Limit; when Cursor is not
    empty the "cursor" parameter is there and equals Cursor. *)
Theorem formatFilters_query_parameters :
  (forall l : ListKVStoresInput.t,
     let m := ListKVStoresInput.formatFilters (Some l) in
     (ListKVStoresInput.Limit l = 0%Z -> ListKVStoresInput.Cursor l = "" ->
        m = None /\ GoMap.len m = 0
        /\ GoMap.lookup m "limit" = None /\ GoMap.lookup m "cursor" = None)
     /\ (ListKVStoresInput.Limit l <> 0%Z ->
        GoMap.lookup m "limit" = Some (Itoa (ListKVStoresInput.Limit l)))
     /\ (ListKVStoresInput.Cursor l <> "" ->
        GoMap.lookup m "cursor" = Some (ListKVStoresInput.Cursor l)))
  /\
  (forall l : ListKVStoreKeysInput.t,
     let m := ListKVStoreKeysInput.formatFilters (Some l) in
     (ListKVStoreKeysInput.Limit l = 0%Z -> ListKVStoreKeysInput.Cursor l = "" ->
        m = None /\ GoMap.len m = 0
        /\ GoMap.lookup m "limit" = None /\ GoMap.lookup m "cursor" = None)
     /\ (ListKVStoreKeysInput.Limit l <> 0%Z ->
        GoMap.lookup m "limit" = Some (Itoa (ListKVStoreKeysInput.Limit l)))
     /\ (ListKVStoreKeysInput.Cursor l <> "" ->
        GoMap.lookup m "cursor" = Some (ListKVStoreKeysInput.Cursor l))).
Proof.
  split; intros l m; subst m.
  - split; [| split].
    + intros Hl Hc. rewrite (stores_filters_default l Hl Hc). by repeat split.
    + intros Hl. rewrite stores_filters_limit.
      by destruct (Z.eqb_spec (ListKVStoresInput.Limit l) 0).
    + intros Hc. rewrite stores_filters_cursor.
      by rewrite (eqb_empty_false _ Hc).
  - split; [| split].
    + intros Hl Hc. rewrite (keys_filters_default l Hl Hc). by repeat split.
    + intros Hl. rewrite keys_filters_limit.
      by destruct (Z.eqb_spec (ListKVStoreKeysInput.Limit l) 0).
    + intros Hc. rewrite keys_filters_cursor.
      by rewrite (eqb_empty_false _ Hc).
Qed.

Lemma formatFilters_query_parameters_witness :
  ListKVStoresInput.formatFilters
    (Some {| ListKVStoresInput.Cursor := ""; ListKVStoresInput.Limit := 0 |})
  = None
  /\ GoMap.lookup
       (ListKVStoresInput.formatFilters
          (Some {| ListKVStoresInput.Cursor := "c1";
                   ListKVStoresInput.Limit := 25 |})) "limit"
     = Some "25"
  /\ GoMap.lookup
       (ListKVStoreKeysInput.formatFilters
          (Some {| ListKVStoreKeysInput.Cursor := "c1";
                   ListKVStoreKeysInput.ID := "s1";
                   ListKVStoreKeysInput.Limit := 0 |})) "cursor"
     = Some "c1".
Proof.
  split; [| split].
  - apply (proj1 formatFilters_query_parameters
             {| ListKVStoresInput.Cursor := ""; ListKVStoresInput.Limit := 0 |});
      reflexivity.
  - apply (proj1 formatFilters_query_parameters
             {| ListKVStoresInput.Cursor := "c1"; ListKVStoresInput.Limit := 25 |}).
    simpl. lia.
  - apply (proj2 formatFilters_query_parameters
             {| ListKVStoreKeysInput.Cursor := "c1";
                ListKVStoreKeysInput.ID := "s1";
                ListKVStoreKeysInput.Limit := 0 |}).
    simpl. discriminate.
Defined.

(** ** Validation before any request *)

Section Validation.
Context {T : Type} (c : Client.t T) (w : World.t T).

Lemma CreateKVStore_missing_name (i : CreateKVStoreInput.t) :
  CreateKVStoreInput.Name i = "" ->
  CreateKVStore c i w = ((None, Some ErrMissingName), w).
Proof. intros H. unfold CreateKVStore. by rewrite (eqb_empty_true _ H). Qed.

Lemma GetKVStore_missing_id (i : GetKVStoreInput.t) :
  GetKVStoreInput.ID i = "" ->
  GetKVStore c i w = ((None, Some ErrMissingID), w).
Proof. intros H. unfold GetKVStore. by rewrite (eqb_empty_true _ H). Qed.

Lemma DeleteKVStore_missing_id (i : DeleteKVStoreInput.t) :
  DeleteKVStoreInput.ID i = "" ->
  DeleteKVStore c i w = (Some ErrMissingID, w).
Proof. intros H. unfold DeleteKVStore. by rewrite (eqb_empty_true _ H). Qed.

Lemma GetKVStoreKey_missing (i : GetKVStoreKeyInput.t) :
  GetKVStoreKeyInput.ID i = "" \/ GetKVStoreKeyInput.Key i = "" ->
  GetKVStoreKey c i w
  = (("", Some (missingField (GetKVStoreKeyInput.ID i)
                  (GetKVStoreKeyInput.Key i))), w).
Proof.
  intros H. unfold GetKVStoreKey, missingField.
  destruct (String.eqb_spec (GetKVStoreKeyInput.ID i) ""); [done |].
  destruct H as [H | H]; [done |]. by rewrite (eqb_empty_true _ H).
Qed.

Lemma InsertKVStoreKey_missing (i : InsertKVStoreKeyInput.t) :
  InsertKVStoreKeyInput.ID i = "" \/ InsertKVStoreKeyInput.Key i = "" ->
  InsertKVStoreKey c i w
  = (Some (missingField (InsertKVStoreKeyInput.ID i)
             (InsertKVStoreKeyInput.Key i)), w).
Proof.
  intros H. unfold InsertKVStoreKey, missingField.
  destruct (String.eqb_spec (InsertKVStoreKeyInput.ID i) ""); [done |].
  destruct H as [H | H]; [done |]. by rewrite (eqb_empty_true _ H).
Qed.

Lemma DeleteKVStoreKey_missing (i : DeleteKVStoreKeyInput.t) :
  DeleteKVStoreKeyInput.ID i = "" \/ DeleteKVStoreKeyInput.Key i = "" ->
  DeleteKVStoreKey c i w
  = (Some (missingField (DeleteKVStoreKeyInput.ID i)
             (DeleteKVStoreKeyInput.Key i)), w).
Proof.
  intros H. unfold DeleteKVStoreKey, missingField.
  destruct (String.eqb_spec (DeleteKVStoreKeyInput.ID i) ""); [done |].
  destruct H as [H | H]; [done |]. by rewrite (eqb_empty_true _ H).
Qed.
End Validation.

(** C6.  CreateKVStore with an empty Name returns the missing-name error,
    GetKVStore and DeleteKVStore with an empty ID return the missing-id
    error, and none of them invokes the transport: the world after the
    call is the world before it and no call was issued. *)
Theorem store_operations_validate_first :
  forall (T : Type) (c : Client.t T) (w : World.t T),
    (forall i, CreateKVStoreInput.Name i = "" ->
       fst (CreateKVStore c i w) = (None, Some ErrMissingName)
       /\ snd (CreateKVStore c i w) = w
       /\ issued w (snd (CreateKVStore c i w)) = [])
    /\ (forall i, GetKVStoreInput.ID i = "" ->
       fst (GetKVStore c i w) = (None, Some ErrMissingID)
       /\ snd (GetKVStore c i w) = w
       /\ issued w (snd (GetKVStore c i w)) = [])
    /\ (forall i, DeleteKVStoreInput.ID i = "" ->
       fst (DeleteKVStore c i w) = Some ErrMissingID
       /\ snd (DeleteKVStore c i w) = w
       /\ issued w (snd (DeleteKVStore c i w)) = []).
Proof.
  intros T c w. split; [| split]; intros i H.
  - rewrite (CreateKVStore_missing_name c w i H). simpl.
    by rewrite issued_nil.
  - rewrite (GetKVStore_missing_id c w i H). simpl.
    by rewrite issued_nil.
  - rewrite (DeleteKVStore_missing_id c w i H). simpl.
    by rewrite issued_nil.
Qed.

Lemma store_operations_validate_first_witness :
  CreateKVStore demoClient {| CreateKVStoreInput.Name := "" |}
    (demoWorld [reply 200 "a"])
  = ((None, Some ErrMissingName), demoWorld [reply 200 "a"])
  /\ GetKVStore demoClient {| GetKVStoreInput.ID := "" |}
       (demoWorld [reply 200 "a"])
     = ((None, Some ErrMissingID), demoWorld [reply 200 "a"])
  /\ DeleteKVStore demoClient {| DeleteKVStoreInput.ID := "" |}
       (demoWorld [reply 204 ""])
     = (Some ErrMissingID, demoWorld [reply 204 ""]).
Proof.
  split; [| split]; apply injective_projections.
  - apply (proj1 (store_operations_validate_first _ demoClient
                    (demoWorld [reply 200 "a"]))). reflexivity.
  - apply (proj1 (store_operations_validate_first _ demoClient
                    (demoWorld [reply 200 "a"]))
             {| CreateKVStoreInput.Name := "" |}). reflexivity.
  - apply (proj1 (proj2 (store_operations_validate_first _ demoClient
                    (demoWorld [reply 200 "a"])))). reflexivity.
  - apply (proj1 (proj2 (store_operations_validate_first _ demoClient
                    (demoWorld [reply 200 "a"])))
             {| GetKVStoreInput.ID := "" |}). reflexivity.
  - apply (proj2 (proj2 (store_operations_validate_first _ demoClient
                    (demoWorld [reply 204 ""])))). reflexivity.
  - apply (proj2 (proj2 (store_operations_validate_first _ demoClient
                    (demoWorld [reply 204 ""])))
             {| DeleteKVStoreInput.ID := "" |}). reflexivity.
Defined.

(** C8.  GetKVStoreKey, InsertKVStoreKey and DeleteKVStoreKey, called with
    an empty store ID, an empty Key or both, return the missing-id error
    when the ID is empty and the missing-key error when only the Key is,
    and invoke no verb of the client: the world is left as it was. *)
Theorem key_operations_validate_first :
  forall (T : Type) (c : Client.t T) (w : World.t T),
    (forall i,
       GetKVStoreKeyInput.ID i = "" \/ GetKVStoreKeyInput.Key i = "" ->
       let r := GetKVStoreKey c i w in
       (GetKVStoreKeyInput.ID i = "" -> fst r = ("", Some ErrMissingID))
       /\ (GetKVStoreKeyInput.ID i <> "" -> fst r = ("", Some ErrMissingKey))
       /\ snd r = w /\ issued w (snd r) = [])
    /\ (forall i,
       InsertKVStoreKeyInput.ID i = "" \/ InsertKVStoreKeyInput.Key i = "" ->
       let r := InsertKVStoreKey c i w in
       (InsertKVStoreKeyInput.ID i = "" -> fst r = Some ErrMissingID)
       /\ (InsertKVStoreKeyInput.ID i <> "" -> fst r = Some ErrMissingKey)
       /\ snd r = w /\ issued w (snd r) = [])
    /\ (forall i,
       DeleteKVStoreKeyInput.ID i = "" \/ DeleteKVStoreKeyInput.Key i = "" ->
       let r := DeleteKVStoreKey c i w in
       (DeleteKVStoreKeyInput.ID i = "" -> fst r = Some ErrMissingID)
       /\ (DeleteKVStoreKeyInput.ID i <> "" -> fst r = Some ErrMissingKey)
       /\ snd r = w /\ issued w (snd r) = []).
Proof.
  intros T c w. split; [| split]; intros i H r; subst r.
  - rewrite (GetKVStoreKey_missing c w i H). unfold missingField. simpl.
    rewrite issued_nil. repeat split.
    + intros E. by rewrite (eqb_empty_true _ E).
    + intros E. by rewrite (eqb_empty_false _ E).
  - rewrite (InsertKVStoreKey_missing c w i H). unfold missingField. simpl.
    rewrite issued_nil. repeat split.
    + intros E. by rewrite (eqb_empty_true _ E).
    + intros E. by rewrite (eqb_empty_false _ E).
  - rewrite (DeleteKVStoreKey_missing c w i H). unfold missingField. simpl.
    rewrite issued_nil. repeat split.
    + intros E. by rewrite (eqb_empty_true _ E).
    + intros E. by rewrite (eqb_empty_false _ E).
Qed.

Lemma key_operations_validate_first_witness :
  GetKVStoreKey demoClient
    {| GetKVStoreKeyInput.ID := "s1"; GetKVStoreKeyInput.Key := "" |}
    (demoWorld [reply 200 "v"])
  = (("", Some ErrMissingKey), demoWorld [reply 200 "v"])
  /\ fst (InsertKVStoreKey demoClient
            {| InsertKVStoreKeyInput.ID := ""; InsertKVStoreKeyInput.Key := "k";
               InsertKVStoreKeyInput.Value := "v" |}
            (demoWorld [reply 200 ""]))
     = Some ErrMissingID
  /\ snd (DeleteKVStoreKey demoClient
            {| DeleteKVStoreKeyInput.ID := ""; DeleteKVStoreKeyInput.Key := "" |}
            (demoWorld [reply 204 ""]))
     = demoWorld [reply 204 ""].
Proof.
  split; [| split].
  - apply injective_projections.
    + apply (proj1 (key_operations_validate_first _ demoClient
                      (demoWorld [reply 200 "v"]))
               {| GetKVStoreKeyInput.ID := "s1"; GetKVStoreKeyInput.Key := "" |});
        [right; reflexivity | discriminate].
    + apply (proj1 (key_operations_validate_first _ demoClient
                      (demoWorld [reply 200 "v"]))
               {| GetKVStoreKeyInput.ID := "s1"; GetKVStoreKeyInput.Key := "" |}).
      right; reflexivity.
  - apply (proj1 (proj2 (key_operations_validate_first _ demoClient
                           (demoWorld [reply 200 ""])))
             {| InsertKVStoreKeyInput.ID := ""; InsertKVStoreKeyInput.Key := "k";
                InsertKVStoreKeyInput.Value := "v" |});
      [left; reflexivity | reflexivity].
  - apply (proj2 (proj2 (key_operations_validate_first _ demoClient
                           (demoWorld [reply 204 ""])))
             {| DeleteKVStoreKeyInput.ID := ""; DeleteKVStoreKeyInput.Key := "" |}).
    left; reflexivity.
Defined.

(** C10.  In GetKVStoreKey, InsertKVStoreKey and DeleteKVStoreKey the store
    ID is checked before the Key: when both are empty the error returned
    is the missing-id error, which is not the missing-key error. *)
Theorem key_operations_check_id_first :
  forall (T : Type) (c : Client.t T) (w : World.t T),
    (forall i, GetKVStoreKeyInput.ID i = "" -> GetKVStoreKeyInput.Key i = "" ->
       snd (fst (GetKVStoreKey c i w)) = Some ErrMissingID
       /\ snd (fst (GetKVStoreKey c i w)) <> Some ErrMissingKey)
    /\ (forall i,
       InsertKVStoreKeyInput.ID i = "" -> InsertKVStoreKeyInput.Key i = "" ->
       fst (InsertKVStoreKey c i w) = Some ErrMissingID
       /\ fst (InsertKVStoreKey c i w) <> Some ErrMissingKey)
    /\ (forall i,
       DeleteKVStoreKeyInput.ID i = "" -> DeleteKVStoreKeyInput.Key i = "" ->
       fst (DeleteKVStoreKey c i w) = Some ErrMissingID
       /\ fst (DeleteKVStoreKey c i w) <> Some ErrMissingKey).
Proof.
  intros T c w. split; [| split]; intros i Hid Hkey.
  - rewrite (GetKVStoreKey_missing c w i (or_introl Hid)).
    unfold missingField. rewrite (eqb_empty_true _ Hid). by split.
  - rewrite (InsertKVStoreKey_missing c w i (or_introl Hid)).
    unfold missingField. rewrite (eqb_empty_true _ Hid). by split.
  - rewrite (DeleteKVStoreKey_missing c w i (or_introl Hid)).
    unfold missingField. rewrite (eqb_empty_true _ Hid). by split.
Qed.

Lemma key_operations_check_id_first_witness :
  snd (fst (GetKVStoreKey demoClient
              {| GetKVStoreKeyInput.ID := ""; GetKVStoreKeyInput.Key := "" |}
              (demoWorld [])))
  = Some ErrMissingID
  /\ fst (InsertKVStoreKey demoClient
            {| InsertKVStoreKeyInput.ID := ""; InsertKVStoreKeyInput.Key := "";
               InsertKVStoreKeyInput.Value := "v" |}
            (demoWorld []))
     = Some ErrMissingID
  /\ fst (DeleteKVStoreKey demoClient
            {| DeleteKVStoreKeyInput.ID := ""; DeleteKVStoreKeyInput.Key := "" |}
            (demoWorld []))
     = Some ErrMissingID.
Proof.
  split; [| split].
  - apply (proj1 (key_operations_check_id_first _ demoClient (demoWorld []))
             {| GetKVStoreKeyInput.ID := ""; GetKVStoreKeyInput.Key := "" |});
      reflexivity.
  - apply (proj1 (proj2 (key_operations_check_id_first _ demoClient
                           (demoWorld [])))
             {| InsertKVStoreKeyInput.ID := ""; InsertKVStoreKeyInput.Key := "";
                InsertKVStoreKeyInput.Value := "v" |});
      reflexivity.
  - apply (proj2 (proj2 (key_operations_check_id_first _ demoClient
                           (demoWorld [])))
             {| DeleteKVStoreKeyInput.ID := ""; DeleteKVStoreKeyInput.Key := "" |});
      reflexivity.
Defined.

(** ** Delete and its one success status *)

Section DeleteStatus.
Context {T : Type} (c : Client.t T) (w w' : World.t T) (resp : Response.t).

Lemma DeleteKVStore_status (i : DeleteKVStoreInput.t) :
  DeleteKVStoreInput.ID i <> "" ->
  Delete c ("/resources/stores/kv/" +:+ DeleteKVStoreInput.ID i) None w
  = (Ok resp, w') ->
  DeleteKVStore c i w
  = (if (Response.StatusCode resp =? 204)%Z then None
     else Some (NewHTTPError resp), w').
Proof.
  intros Hid Hcall. unfold DeleteKVStore.
  rewrite (eqb_empty_false _ Hid), Hcall. unfold StatusNoContent.
  by destruct (Response.StatusCode resp =? 204)%Z.
Qed.

Lemma DeleteKVStoreKey_status (i : DeleteKVStoreKeyInput.t) :
  DeleteKVStoreKeyInput.ID i <> "" -> DeleteKVStoreKeyInput.Key i <> "" ->
  Delete c ("/resources/stores/kv/" +:+ DeleteKVStoreKeyInput.ID i
            +:+ "/keys/" +:+ DeleteKVStoreKeyInput.Key i) None w
  = (Ok resp, w') ->
  DeleteKVStoreKey c i w
  = (if (Response.StatusCode resp =? 204)%Z then None
     else Some (NewHTTPError resp), w').
Proof.
  intros Hid Hkey Hcall. unfold DeleteKVStoreKey.
  rewrite (eqb_empty_false _ Hid), (eqb_empty_false _ Hkey), Hcall.
  unfold StatusNoContent.
  by destruct (Response.StatusCode resp =? 204)%Z.
Qed.
End DeleteStatus.

(** C5.  When the Delete verb of the client comes back with a response and
    no error, DeleteKVStore and DeleteKVStoreKey return no error if the
    status code of the response is exactly 204, and for every other status
    code return the HTTP error built from that response, which carries
    that status code and the response itself. *)
Theorem delete_requires_no_content :
  forall (T : Type) (c : Client.t T) (w w' : World.t T) (resp : Response.t),
    (forall i,
       DeleteKVStoreInput.ID i <> "" ->
       Delete c ("/resources/stores/kv/" +:+ DeleteKVStoreInput.ID i) None w
       = (Ok resp, w') ->
       (Response.StatusCode resp = 204%Z ->
          DeleteKVStore c i w = (None, w'))
       /\ (Response.StatusCode resp <> 204%Z ->
          exists e, DeleteKVStore c i w = (Some e, w')
            /\ e = NewHTTPError resp
            /\ errStatus e = Some (Response.StatusCode resp)
            /\ errResponse e = Some resp))
    /\ (forall i,
       DeleteKVStoreKeyInput.ID i <> "" -> DeleteKVStoreKeyInput.Key i <> "" ->
       Delete c ("/resources/stores/kv/" +:+ DeleteKVStoreKeyInput.ID i
                 +:+ "/keys/" +:+ DeleteKVStoreKeyInput.Key i) None w
       = (Ok resp, w') ->
       (Response.StatusCode resp = 204%Z ->
          DeleteKVStoreKey c i w = (None, w'))
       /\ (Response.StatusCode resp <> 204%Z ->
          exists e, DeleteKVStoreKey c i w = (Some e, w')
            /\ e = NewHTTPError resp
            /\ errStatus e = Some (Response.StatusCode resp)
            /\ errResponse e = Some resp)).
Proof.
  intros T c w w' resp. split.
  - intros i Hid Hcall. rewrite (DeleteKVStore_status c w w' resp i Hid Hcall).
    split; intros Hs.
    + by rewrite Hs.
    + exists (NewHTTPError resp).
      by rewrite (proj2 (Z.eqb_neq _ _) Hs).
  - intros i Hid Hkey Hcall.
    rewrite (DeleteKVStoreKey_status c w w' resp i Hid Hkey Hcall).
    split; intros Hs.
    + by rewrite Hs.
    + exists (NewHTTPError resp).
      by rewrite (proj2 (Z.eqb_neq _ _) Hs).
Qed.

Lemma delete_requires_no_content_witness :
  DeleteKVStore demoClient {| DeleteKVStoreInput.ID := "s1" |}
    (demoWorld [reply 204 ""])
  = (None, {| World.calls := [CallDelete "/resources/stores/kv/s1" None];
              World.remote := [] |})
  /\ exists e,
       DeleteKVStoreKey demoClient
         {| DeleteKVStoreKeyInput.ID := "s1"; DeleteKVStoreKeyInput.Key := "k" |}
         (demoWorld [reply 200 "ok"])
       = (Some e,
          {| World.calls := [CallDelete "/resources/stores/kv/s1/keys/k" None];
             World.remote := [] |})
       /\ e = NewHTTPError
                {| Response.StatusCode := 200; Response.Body := body "ok" |}
       /\ errStatus e = Some 200%Z
       /\ errResponse e
          = Some {| Response.StatusCode := 200; Response.Body := body "ok" |}.
Proof.
  split.
  - apply (proj1 (delete_requires_no_content _ demoClient
                    (demoWorld [reply 204 ""]) _
                    {| Response.StatusCode := 204; Response.Body := body "" |})
             {| DeleteKVStoreInput.ID := "s1" |});
      [discriminate | reflexivity | reflexivity].
  - apply (proj2 (delete_requires_no_content _ demoClient
                    (demoWorld [reply 200 "ok"]) _
                    {| Response.StatusCode := 200; Response.Body := body "ok" |})
             {| DeleteKVStoreKeyInput.ID := "s1";
                DeleteKVStoreKeyInput.Key := "k" |});
      [discriminate | discriminate | reflexivity | simpl; lia].
Defined.

(** ** Insert *)

(** C9.  InsertKVStoreKey does not look at the Value: for every input with
    a non-empty ID and a non-empty Key, whatever the Value and so also for
    the empty one, validation passes and exactly one call is issued, a Put
    on the path of the key with no query parameters and with the Value
    string itself as the body, not a JSON encoding of it.  The error
    returned is the one of the verb, or else the one checkResp gives for
    the response. *)
Theorem InsertKVStoreKey_sends_raw_value :
  forall (T : Type) (c : Client.t T) (w : World.t T)
         (i : InsertKVStoreKeyInput.t),
    InsertKVStoreKeyInput.ID i <> "" ->
    InsertKVStoreKeyInput.Key i <> "" ->
    let path := "/resources/stores/kv/" +:+ InsertKVStoreKeyInput.ID i
                +:+ "/keys/" +:+ InsertKVStoreKeyInput.Key i in
    let ro := {| RequestOptions.Params := None;
                 RequestOptions.Body := Some (InsertKVStoreKeyInput.Value i) |} in
    issued w (snd (InsertKVStoreKey c i w)) = [CallPut path (Some ro)]
    /\ snd (InsertKVStoreKey c i w) = snd (Put c path (Some ro) w)
    /\ fst (InsertKVStoreKey c i w)
       = match fst (Put c path (Some ro) w) with
         | Err e => Some e
         | Ok resp => snd (Client.checkResp c resp None)
         end
    /\ (InsertKVStoreKeyInput.Value i = "" ->
        issued w (snd (InsertKVStoreKey c i w))
        = [CallPut path (Some {| RequestOptions.Params := None;
                                 RequestOptions.Body := Some "" |})]).
Proof.
  intros T c w i Hid Hkey path ro.
  assert (E : InsertKVStoreKey c i w
              = (match fst (Put c path (Some ro) w) with
                 | Err e => Some e
                 | Ok resp => snd (Client.checkResp c resp None)
                 end, snd (Put c path (Some ro) w))).
  { unfold InsertKVStoreKey.
    rewrite (eqb_empty_false _ Hid), (eqb_empty_false _ Hkey).
    fold path. fold ro.
    by destruct (Put c path (Some ro) w) as [[resp | e] w1]. }
  assert (L : issued w (snd (InsertKVStoreKey c i w)) = [CallPut path (Some ro)]).
  { rewrite E. unfold Put. rewrite invoke_spec. simpl. apply issued_app. }
  repeat split.
  - exact L.
  - by rewrite E.
  - by rewrite E.
  - intros Hv. rewrite L. subst ro. by rewrite Hv.
Qed.

Lemma InsertKVStoreKey_sends_raw_value_witness :
  InsertKVStoreKey demoClient
    {| InsertKVStoreKeyInput.ID := "s1"; InsertKVStoreKeyInput.Key := "k";
       InsertKVStoreKeyInput.Value := "" |}
    (demoWorld [reply 200 ""])
  = (None,
     {| World.calls :=
          [CallPut "/resources/stores/kv/s1/keys/k"
             (Some {| RequestOptions.Params := None;
                      RequestOptions.Body := Some "" |})];
        World.remote := [] |}).
Proof.
  apply injective_projections.
  - apply (InsertKVStoreKey_sends_raw_value _ demoClient
             (demoWorld [reply 200 ""])
             {| InsertKVStoreKeyInput.ID := "s1"; InsertKVStoreKeyInput.Key := "k";
                InsertKVStoreKeyInput.Value := "" |}); discriminate.
  - apply (InsertKVStoreKey_sends_raw_value _ demoClient
             (demoWorld [reply 200 ""])
             {| InsertKVStoreKeyInput.ID := "s1"; InsertKVStoreKeyInput.Key := "k";
                InsertKVStoreKeyInput.Value := "" |}); discriminate.
Defined.

(** ** The list calls under the paginators *)

Section ListCalls.
Context {T : Type} (c : Client.t T) (w : World.t T).

Lemma ListKVStores_unfold (i : option ListKVStoresInput.t) :
  ListKVStores c i w
  = (match fst (invoke c (storesCall i) w) with
     | Err e => (None, Some e)
     | Ok resp =>
         match Client.decodeListKVStoresResponse c (Response.Body resp) with
         | (_, Some e) => (None, Some e)
         | (output, None) => (output, None)
         end
     end, snd (invoke c (storesCall i) w)).
Proof.
  unfold ListKVStores, Get, storesCall.
  destruct (invoke c _ w) as [[resp | e] w1]; simpl; [| done].
  by destruct (Client.decodeListKVStoresResponse c (Response.Body resp))
    as [o [e |]].
Qed.

Lemma ListKVStores_error (i : option ListKVStoresInput.t) o e w' :
  ListKVStores c i w = ((o, Some e), w') -> o = None.
Proof.
  rewrite ListKVStores_unfold.
  destruct (fst (invoke c (storesCall i) w)) as [resp | e'].
  - destruct (Client.decodeListKVStoresResponse c (Response.Body resp))
      as [o' [e' |]]; congruence.
  - congruence.
Qed.

Lemma ListKVStores_issued (i : option ListKVStoresInput.t) :
  issued w (snd (ListKVStores c i w)) = [storesCall i].
Proof.
  rewrite ListKVStores_unfold, invoke_spec. simpl. apply issued_app.
Qed.

Lemma ListKVStoreKeys_unfold (i : ListKVStoreKeysInput.t) :
  ListKVStoreKeysInput.ID i <> "" ->
  ListKVStoreKeys c i w
  = (match fst (invoke c (keysCall i) w) with
     | Err e => (None, Some e)
     | Ok resp =>
         match Client.decodeListKVStoreKeysResponse c (Response.Body resp) with
         | (_, Some e) => (None, Some e)
         | (output, None) => (output, None)
         end
     end, snd (invoke c (keysCall i) w)).
Proof.
  intros Hid. unfold ListKVStoreKeys, Get, keysCall.
  rewrite (eqb_empty_false _ Hid).
  destruct (invoke c _ w) as [[resp | e] w1]; simpl; [| done].
  by destruct (Client.decodeListKVStoreKeysResponse c (Response.Body resp))
    as [o [e |]].
Qed.

Lemma ListKVStoreKeys_error (i : ListKVStoreKeysInput.t) o e w' :
  ListKVStoreKeys c i w = ((o, Some e), w') -> o = None.
Proof.
  destruct (String.eqb_spec (ListKVStoreKeysInput.ID i) "") as [Hid | Hid].
  - unfold ListKVStoreKeys. rewrite (eqb_empty_true _ Hid). congruence.
  - rewrite (ListKVStoreKeys_unfold i Hid).
    destruct (fst (invoke c (keysCall i) w)) as [resp | e'].
    + destruct (Client.decodeListKVStoreKeysResponse c (Response.Body resp))
        as [o' [e' |]]; congruence.
    + congruence.
Qed.

Lemma ListKVStoreKeys_success (i : ListKVStoreKeysInput.t) o w' :
  ListKVStoreKeys c i w = ((o, None), w') -> ListKVStoreKeysInput.ID i <> "".
Proof.
  intros H Hid. unfold ListKVStoreKeys in H.
  rewrite (eqb_empty_true _ Hid) in H. congruence.
Qed.

Lemma ListKVStoreKeys_issued (i : ListKVStoreKeysInput.t) :
  ListKVStoreKeysInput.ID i <> "" ->
  issued w (snd (ListKVStoreKeys c i w)) = [keysCall i].
Proof.
  intros Hid. rewrite (ListKVStoreKeys_unfold i Hid), invoke_spec. simpl.
  apply issued_app.
Qed.
End ListCalls.

Lemma storesCall_cursor (cur : string) (i : ListKVStoresInput.t) :
  submittedCursor (storesCall (Some (ListKVStoresInput.set_Cursor cur i))) = cur.
Proof.
  unfold submittedCursor, callParams, storesCall, callOptions.
  cbn [RequestOptions.Params RequestOptions.set_Params].
  rewrite index_lookup, stores_filters_cursor. simpl.
  by destruct (String.eqb_spec cur "").
Qed.

Lemma keysCall_cursor (cur : string) (i : ListKVStoreKeysInput.t) :
  submittedCursor (keysCall (ListKVStoreKeysInput.set_Cursor cur i)) = cur.
Proof.
  unfold submittedCursor, callParams, keysCall, callOptions.
  cbn [RequestOptions.Params RequestOptions.set_Params].
  rewrite index_lookup, keys_filters_cursor. simpl.
  by destruct (String.eqb_spec cur "").
Qed.

(** ** One step of a paginator *)

Section StoresStep.
Import ListKVStoresPaginator.
Context {T : Type} (l : t T) (w : World.t T).

Lemma stores_Next_finished :
  finished l = true -> Next l w = (Returned false, set_stores [] l, w).
Proof. intros H. unfold Next. by rewrite H. Qed.

Lemma stores_Next_nil_input :
  finished l = false -> input l = None ->
  Next l w = (Panicked (NilDereference "l.input.Cursor"), l, w).
Proof. intros Hf Hi. unfold Next. by rewrite Hf, Hi. Qed.

Lemma stores_Next_error (i : ListKVStoresInput.t) o e w' :
  finished l = false -> input l = Some i ->
  ListKVStores (client l)
    (Some (ListKVStoresInput.set_Cursor (cursor l) i)) w = ((o, Some e), w') ->
  Next l w
  = (Panicked (NilDereference "o.Data"),
     set_finished true
       (set_err (Some e)
          (set_input (Some (ListKVStoresInput.set_Cursor (cursor l) i)) l)),
     w').
Proof.
  intros Hf Hi Hcall. pose proof (ListKVStores_error _ _ _ _ _ _ Hcall) as ->.
  unfold Next. rewrite Hf, Hi. simpl. by rewrite Hcall.
Qed.

Lemma stores_Next_success (i : ListKVStoresInput.t) o w' :
  finished l = false -> input l = Some i ->
  ListKVStores (client l)
    (Some (ListKVStoresInput.set_Cursor (cursor l) i)) w
  = ((Some o, None), w') ->
  Next l w
  = (Returned true,
     (let l1 := set_stores (ListKVStoresResponse.Data o)
                  (set_input (Some (ListKVStoresInput.set_Cursor (cursor l) i)) l) in
      let next := GoMap.index (ListKVStoresResponse.Meta o) "next_cursor" in
      if String.eqb next "" then set_finished true l1 else set_cursor next l1),
     w').
Proof.
  intros Hf Hi Hcall. unfold Next. rewrite Hf, Hi. simpl. rewrite Hcall.
  by destruct (String.eqb _ "").
Qed.

Lemma stores_Next_issued (i : ListKVStoresInput.t) :
  finished l = false -> input l = Some i ->
  issued w (snd (Next l w))
  = [storesCall (Some (ListKVStoresInput.set_Cursor (cursor l) i))].
Proof.
  intros Hf Hi.
  pose proof (ListKVStores_issued (client l) w
                (Some (ListKVStoresInput.set_Cursor (cursor l) i))) as Hk.
  unfold Next. rewrite Hf, Hi. simpl.
  destruct (ListKVStores (client l) _ w) as [[[o |] [e |]] w1]; simpl in *;
    try done; by case_match.
Qed.
End StoresStep.

Section KeysStep.
Import ListKVStoreKeysPaginator.
Context {T : Type} (l : t T) (w : World.t T).

Lemma keys_Next_finished :
  finished l = true -> Next l w = (Returned false, set_keys [] l, w).
Proof. intros H. unfold Next. by rewrite H. Qed.

Lemma keys_Next_nil_input :
  finished l = false -> input l = None ->
  Next l w = (Panicked (NilDereference "l.input.Cursor"), l, w).
Proof. intros Hf Hi. unfold Next. by rewrite Hf, Hi. Qed.

Lemma keys_Next_error (i : ListKVStoreKeysInput.t) o e w' :
  finished l = false -> input l = Some i ->
  ListKVStoreKeys (client l)
    (ListKVStoreKeysInput.set_Cursor (cursor l) i) w = ((o, Some e), w') ->
  Next l w
  = (Panicked (NilDereference "o.Data"),
     set_finished true
       (set_err (Some e)
          (set_input (Some (ListKVStoreKeysInput.set_Cursor (cursor l) i)) l)),
     w').
Proof.
  intros Hf Hi Hcall. pose proof (ListKVStoreKeys_error _ _ _ _ _ _ Hcall) as ->.
  unfold Next. rewrite Hf, Hi. simpl. by rewrite Hcall.
Qed.

Lemma keys_Next_success (i : ListKVStoreKeysInput.t) o w' :
  finished l = false -> input l = Some i ->
  ListKVStoreKeys (client l)
    (ListKVStoreKeysInput.set_Cursor (cursor l) i) w
  = ((Some o, None), w') ->
  Next l w
  = (Returned true,
     (let l1 := set_keys (ListKVStoreKeysResponse.Data o)
                  (set_input (Some (ListKVStoreKeysInput.set_Cursor (cursor l) i)) l) in
      let next := GoMap.index (ListKVStoreKeysResponse.Meta o) "next_cursor" in
      if String.eqb next "" then set_finished true l1 else set_cursor next l1),
     w').
Proof.
  intros Hf Hi Hcall. unfold Next. rewrite Hf, Hi. simpl. rewrite Hcall.
  by destruct (String.eqb _ "").
Qed.

Lemma keys_Next_issued (i : ListKVStoreKeysInput.t) :
  finished l = false -> input l = Some i ->
  ListKVStoreKeysInput.ID i <> "" ->
  issued w (snd (Next l w))
  = [keysCall (ListKVStoreKeysInput.set_Cursor (cursor l) i)].
Proof.
  intros Hf Hi Hid.
  pose proof (ListKVStoreKeys_issued (client l) w
                (ListKVStoreKeysInput.set_Cursor (cursor l) i) Hid) as Hk.
  unfold Next. rewrite Hf, Hi. simpl.
  destruct (ListKVStoreKeys (client l) _ w) as [[[o |] [e |]] w1]; simpl in *;
    try done; by case_match.
Qed.
End KeysStep.

(** ** The paginators: the claims *)

(** C2.  Finished is terminal and Next is idempotent there: on a stores or
    keys paginator whose finished flag is set, Next returns false, empties
    the current page and changes nothing else.  The error, the cursor, the
    finished flag, the input and the client are as before, the world is as
    before and no call was issued; a further Next changes nothing at all. *)
Theorem Next_finished_is_terminal :
  forall (T : Type) (w : World.t T),
    (forall l : SP.t T,
       SP.finished l = true ->
       let '(r, l', w') := SP.Next l w in
       r = Returned false
       /\ SP.Stores l' = [] /\ SP.Err l' = SP.Err l
       /\ SP.cursor l' = SP.cursor l /\ SP.finished l' = true
       /\ SP.input l' = SP.input l /\ SP.client l' = SP.client l
       /\ w' = w /\ issued w w' = []
       /\ SP.Next l' w' = (Returned false, l', w'))
    /\ (forall l : KP.t T,
       KP.finished l = true ->
       let '(r, l', w') := KP.Next l w in
       r = Returned false
       /\ KP.Keys l' = [] /\ KP.Err l' = KP.Err l
       /\ KP.cursor l' = KP.cursor l /\ KP.finished l' = true
       /\ KP.input l' = KP.input l /\ KP.client l' = KP.client l
       /\ w' = w /\ issued w w' = []
       /\ KP.Next l' w' = (Returned false, l', w')).
Proof.
  intros T w. split; intros l Hf.
  - rewrite (stores_Next_finished l w Hf). simpl.
    repeat split; try done.
    + apply issued_nil.
    + by rewrite stores_Next_finished.
  - rewrite (keys_Next_finished l w Hf). simpl.
    repeat split; try done.
    + apply issued_nil.
    + by rewrite keys_Next_finished.
Qed.

Lemma Next_finished_is_terminal_witness :
  SP.finished demoFinishedStores = true
  /\ SP.Next demoFinishedStores (demoWorld [reply 200 "p1"])
     = (Returned false, SP.set_stores [] demoFinishedStores,
        demoWorld [reply 200 "p1"])
  /\ KP.Next demoFinishedKeys (demoWorld [reply 200 "p1"])
     = (Returned false, KP.set_keys [] demoFinishedKeys,
        demoWorld [reply 200 "p1"]).
Proof.
  pose proof (proj1 (Next_finished_is_terminal _ (demoWorld [reply 200 "p1"]))
                demoFinishedStores eq_refl) as Hs.
  pose proof (proj2 (Next_finished_is_terminal _ (demoWorld [reply 200 "p1"]))
                demoFinishedKeys eq_refl) as Hk.
  destruct (SP.Next demoFinishedStores _) as [[rs ls] ws].
  destruct (KP.Next demoFinishedKeys _) as [[rk lk] wk].
  destruct Hs as (-> & Hs1 & Hs2 & Hs3 & Hs4 & Hs5 & Hs6 & -> & _).
  destruct Hk as (-> & Hk1 & Hk2 & Hk3 & Hk4 & Hk5 & Hk6 & -> & _).
  destruct ls, lk. simpl in *. subst. by repeat split.
Defined.

(** C1.  When the list call made inside Next fails, Next records the error
    and sets finished, and does not skip the extraction: the response the
    failed call returned is nil, and Next goes on to read its Data, which
    is the dereference of a nil pointer.  The step ends in that panic,
    with the error recorded, finished set and the page and the cursor as
    they were; the read of the metadata comes after it in the code and is
    not reached. *)
Theorem Next_reads_response_after_error :
  forall (T : Type) (w w' : World.t T) (e : error),
    (forall (l : SP.t T) i o,
       SP.finished l = false -> SP.input l = Some i ->
       ListKVStores (SP.client l)
         (Some (ListKVStoresInput.set_Cursor (SP.cursor l) i)) w
       = ((o, Some e), w') ->
       o = None
       /\ let '(r, l', w'') := SP.Next l w in
          r = Panicked (NilDereference "o.Data")
          /\ SP.Err l' = Some e /\ SP.finished l' = true
          /\ SP.Stores l' = SP.Stores l /\ SP.cursor l' = SP.cursor l
          /\ w'' = w')
    /\ (forall (l : KP.t T) i o,
       KP.finished l = false -> KP.input l = Some i ->
       ListKVStoreKeys (KP.client l)
         (ListKVStoreKeysInput.set_Cursor (KP.cursor l) i) w
       = ((o, Some e), w') ->
       o = None
       /\ let '(r, l', w'') := KP.Next l w in
          r = Panicked (NilDereference "o.Data")
          /\ KP.Err l' = Some e /\ KP.finished l' = true
          /\ KP.Keys l' = KP.Keys l /\ KP.cursor l' = KP.cursor l
          /\ w'' = w').
Proof.
  intros T w w' e. split; intros l i o Hf Hi Hcall.
  - split; [by eapply ListKVStores_error |].
    by rewrite (stores_Next_error l w i o e w' Hf Hi Hcall).
  - split; [by eapply ListKVStoreKeys_error |].
    by rewrite (keys_Next_error l w i o e w' Hf Hi Hcall).
Qed.

Lemma Next_reads_response_after_error_witness :
  (let '(r, l', w'') :=
     SP.Next (NewListKVStoresPaginator demoClient
                (Some {| ListKVStoresInput.Cursor := "";
                         ListKVStoresInput.Limit := 0 |}))
       (demoWorld [Err (ExternalError "connection refused")]) in
   r = Panicked (NilDereference "o.Data")
   /\ SP.Err l' = Some (ExternalError "connection refused")
   /\ SP.finished l' = true
   /\ SP.Stores l' = [] /\ SP.cursor l' = ""
   /\ w'' = {| World.calls := [storesCall
                                 (Some {| ListKVStoresInput.Cursor := "";
                                          ListKVStoresInput.Limit := 0 |})];
               World.remote := [] |})
  /\ (let '(r, l', w'') :=
        KP.Next (NewListKVStoreKeysPaginator demoClient
                   (Some {| ListKVStoreKeysInput.Cursor := "";
                            ListKVStoreKeysInput.ID := "";
                            ListKVStoreKeysInput.Limit := 0 |}))
          (demoWorld []) in
      r = Panicked (NilDereference "o.Data")
      /\ KP.Err l' = Some ErrMissingID /\ KP.finished l' = true
      /\ KP.Keys l' = [] /\ KP.cursor l' = ""
      /\ w'' = demoWorld []).
Proof.
  split.
  - apply (proj1 (Next_reads_response_after_error _
                    (demoWorld [Err (ExternalError "connection refused")])
                    _ (ExternalError "connection refused"))
             (NewListKVStoresPaginator demoClient
                (Some {| ListKVStoresInput.Cursor := "";
                         ListKVStoresInput.Limit := 0 |}))
             {| ListKVStoresInput.Cursor := ""; ListKVStoresInput.Limit := 0 |}
             None); reflexivity.
  - apply (proj2 (Next_reads_response_after_error _ (demoWorld []) _
                    ErrMissingID)
             (NewListKVStoreKeysPaginator demoClient
                (Some {| ListKVStoreKeysInput.Cursor := "";
                         ListKVStoreKeysInput.ID := "";
                         ListKVStoreKeysInput.Limit := 0 |}))
             {| ListKVStoreKeysInput.Cursor := ""; ListKVStoreKeysInput.ID := "";
                ListKVStoreKeysInput.Limit := 0 |}
             None); reflexivity.
Defined.

(** C3, as amended.  On a paginator that has not finished, when the list
    call returns no error and a response that is not nil, Next returns
    true and stores the items of the response as the current page.  If the
    metadata has no "next_cursor" or an empty one, the paginator is
    finished; otherwise next_cursor becomes the cursor, the paginator is
    not finished, and the following Next issues exactly one call, which
    submits that cursor.  (A list call that returns no error and a nil
    response is the case the claim as written does not survive: see the
    counterexample below.) *)
Theorem Next_stores_page_and_cursor :
  forall (T : Type) (w w' : World.t T),
    (forall (l : SP.t T) i o,
       SP.finished l = false -> SP.input l = Some i ->
       ListKVStores (SP.client l)
         (Some (ListKVStoresInput.set_Cursor (SP.cursor l) i)) w
       = ((Some o, None), w') ->
       let meta := GoMap.lookup (ListKVStoresResponse.Meta o) "next_cursor" in
       let '(r, l', w'') := SP.Next l w in
       r = Returned true /\ w'' = w'
       /\ SP.Stores l' = ListKVStoresResponse.Data o
       /\ SP.Err l' = SP.Err l
       /\ (meta = None \/ meta = Some "" ->
           SP.finished l' = true /\ SP.cursor l' = SP.cursor l)
       /\ (forall next, meta = Some next -> next <> "" ->
           SP.finished l' = false /\ SP.cursor l' = next
           /\ forall w2, submittedCursor <$> issued w2 (snd (SP.Next l' w2))
                         = [next]))
    /\ (forall (l : KP.t T) i o,
       KP.finished l = false -> KP.input l = Some i ->
       ListKVStoreKeys (KP.client l)
         (ListKVStoreKeysInput.set_Cursor (KP.cursor l) i) w
       = ((Some o, None), w') ->
       let meta := GoMap.lookup (ListKVStoreKeysResponse.Meta o) "next_cursor" in
       let '(r, l', w'') := KP.Next l w in
       r = Returned true /\ w'' = w'
       /\ KP.Keys l' = ListKVStoreKeysResponse.Data o
       /\ KP.Err l' = KP.Err l
       /\ (meta = None \/ meta = Some "" ->
           KP.finished l' = true /\ KP.cursor l' = KP.cursor l)
       /\ (forall next, meta = Some next -> next <> "" ->
           KP.finished l' = false /\ KP.cursor l' = next
           /\ forall w2, submittedCursor <$> issued w2 (snd (KP.Next l' w2))
                         = [next])).
Proof.
  intros T w w'. split; intros l i o Hf Hi Hcall meta.
  - rewrite (stores_Next_success l w i o w' Hf Hi Hcall).
    rewrite index_lookup. fold meta.
    destruct meta as [next |] eqn:Hm; cbn [default from_option id];
      [destruct (String.eqb_spec next "") as [-> | Hne] |];
      cbv beta iota zeta; split_and!; try done.
    + by intros next [= <-].
    + by intros [? | [= ->]].
    + intros next' [= <-] _. split_and!; try done. intros w2.
      rewrite (stores_Next_issued _ w2
                 (ListKVStoresInput.set_Cursor (SP.cursor l) i)) by done.
      exact (f_equal (fun k => [k]) (storesCall_cursor next _)).
  - pose proof (ListKVStoreKeys_success _ _ _ _ _ Hcall) as Hid.
    rewrite (keys_Next_success l w i o w' Hf Hi Hcall).
    rewrite index_lookup. fold meta.
    destruct meta as [next |] eqn:Hm; cbn [default from_option id];
      [destruct (String.eqb_spec next "") as [-> | Hne] |];
      cbv beta iota zeta; split_and!; try done.
    + by intros next [= <-].
    + by intros [? | [= ->]].
    + intros next' [= <-] _. split_and!; try done. intros w2.
      rewrite (keys_Next_issued _ w2
                 (ListKVStoreKeysInput.set_Cursor (KP.cursor l) i)) by done.
      exact (f_equal (fun k => [k]) (keysCall_cursor next _)).
Qed.

Lemma Next_stores_page_and_cursor_witness :
  (let '(r, l', _) :=
     SP.Next (NewListKVStoresPaginator demoClient
                (Some {| ListKVStoresInput.Cursor := "";
                         ListKVStoresInput.Limit := 2 |}))
       (demoWorld [reply 200 "p1"; reply 200 "p3"]) in
   r = Returned true
   /\ SP.Stores l' = [demoStore "a"; demoStore "b"]
   /\ SP.finished l' = false /\ SP.cursor l' = "c1")
  /\ (let '(r, l', _) :=
        KP.Next (NewListKVStoreKeysPaginator demoClient
                   (Some {| ListKVStoreKeysInput.Cursor := "";
                            ListKVStoreKeysInput.ID := "s1";
                            ListKVStoreKeysInput.Limit := 0 |}))
          (demoWorld [reply 200 "p3"]) in
      r = Returned true /\ KP.Keys l' = ["k3"]
      /\ KP.finished l' = true /\ KP.cursor l' = "").
Proof.
  split.
  - pose proof (proj1 (Next_stores_page_and_cursor _
                         (demoWorld [reply 200 "p1"; reply 200 "p3"])
                         {| World.calls :=
                              [storesCall
                                 (Some {| ListKVStoresInput.Cursor := "";
                                          ListKVStoresInput.Limit := 2 |})];
                            World.remote := [reply 200 "p3"] |})
                  (NewListKVStoresPaginator demoClient
                     (Some {| ListKVStoresInput.Cursor := "";
                              ListKVStoresInput.Limit := 2 |}))
                  {| ListKVStoresInput.Cursor := ""; ListKVStoresInput.Limit := 2 |}
                  {| ListKVStoresResponse.Data := [demoStore "a"; demoStore "b"];
                     ListKVStoresResponse.Meta := demoMeta "c1" |}
                  eq_refl eq_refl eq_refl) as H.
    destruct (SP.Next _ _) as [[r l'] w''].
    destruct H as (Hr & _ & Hp & _ & _ & Hn).
    destruct (Hn "c1" eq_refl) as (Hf & Hc & _); [discriminate |].
    by repeat split.
  - pose proof (proj2 (Next_stores_page_and_cursor _
                         (demoWorld [reply 200 "p3"])
                         {| World.calls :=
                              [keysCall
                                 {| ListKVStoreKeysInput.Cursor := "";
                                    ListKVStoreKeysInput.ID := "s1";
                                    ListKVStoreKeysInput.Limit := 0 |}];
                            World.remote := [] |})
                  (NewListKVStoreKeysPaginator demoClient
                     (Some {| ListKVStoreKeysInput.Cursor := "";
                              ListKVStoreKeysInput.ID := "s1";
                              ListKVStoreKeysInput.Limit := 0 |}))
                  {| ListKVStoreKeysInput.Cursor := "";
                     ListKVStoreKeysInput.ID := "s1";
                     ListKVStoreKeysInput.Limit := 0 |}
                  {| ListKVStoreKeysResponse.Data := ["k3"];
                     ListKVStoreKeysResponse.Meta := None |}
                  eq_refl eq_refl eq_refl) as H.
    destruct (KP.Next _ _) as [[r l'] w''].
    destruct H as (Hr & _ & Hp & _ & Hn & _).
    destruct (Hn (or_introl eq_refl)) as (Hf & Hc).
    by repeat split.
Defined.

(** C3, the claim as written.  The list call can come back with no error
    and a nil response: that is what ListKVStores and ListKVStoreKeys
    return when the decoder reports no error and has not set the pointer,
    as for a body that is the JSON null.  On a new paginator, which has
    not finished, the list call then succeeds, and Next neither returns
    true nor stores a page: it panics on reading o.Data, with the page
    still empty and the paginator not finished.  Both paginators. *)
Lemma Next_nil_response_counterexample :
  (SP.finished
     (NewListKVStoresPaginator nullClient
        (Some {| ListKVStoresInput.Cursor := ""; ListKVStoresInput.Limit := 0 |}))
   = false
   /\ fst (ListKVStores nullClient
             (Some {| ListKVStoresInput.Cursor := "";
                      ListKVStoresInput.Limit := 0 |})
             (demoWorld [reply 200 "null"]))
      = (None, None)
   /\ SP.Next
        (NewListKVStoresPaginator nullClient
           (Some {| ListKVStoresInput.Cursor := "";
                    ListKVStoresInput.Limit := 0 |}))
        (demoWorld [reply 200 "null"])
      = (Panicked (NilDereference "o.Data"),
         NewListKVStoresPaginator nullClient
           (Some {| ListKVStoresInput.Cursor := "";
                    ListKVStoresInput.Limit := 0 |}),
         {| World.calls :=
              [storesCall (Some {| ListKVStoresInput.Cursor := "";
                                   ListKVStoresInput.Limit := 0 |})];
            World.remote := [] |})
   /\ fst (fst (SP.Next
                  (NewListKVStoresPaginator nullClient
                     (Some {| ListKVStoresInput.Cursor := "";
                              ListKVStoresInput.Limit := 0 |}))
                  (demoWorld [reply 200 "null"])))
      <> Returned true)
  /\ (KP.finished
        (NewListKVStoreKeysPaginator nullClient
           (Some {| ListKVStoreKeysInput.Cursor := "";
                    ListKVStoreKeysInput.ID := "s1";
                    ListKVStoreKeysInput.Limit := 0 |}))
      = false
      /\ fst (ListKVStoreKeys nullClient
                {| ListKVStoreKeysInput.Cursor := "";
                   ListKVStoreKeysInput.ID := "s1";
                   ListKVStoreKeysInput.Limit := 0 |}
                (demoWorld [reply 200 "null"]))
         = (None, None)
      /\ fst (fst (KP.Next
                     (NewListKVStoreKeysPaginator nullClient
                        (Some {| ListKVStoreKeysInput.Cursor := "";
                                 ListKVStoreKeysInput.ID := "s1";
                                 ListKVStoreKeysInput.Limit := 0 |}))
                     (demoWorld [reply 200 "null"])))
         = Panicked (NilDereference "o.Data")
      /\ fst (fst (KP.Next
                     (NewListKVStoreKeysPaginator nullClient
                        (Some {| ListKVStoreKeysInput.Cursor := "";
                                 ListKVStoreKeysInput.ID := "s1";
                                 ListKVStoreKeysInput.Limit := 0 |}))
                     (demoWorld [reply 200 "null"])))
         <> Returned true).
Proof.
  split; split_and!; try (vm_compute; reflexivity); vm_compute; discriminate.
Qed.

(** ** The round trip over a scripted transport *)

Section Scripted.
Context (c : Client.t (list (result Response.t))).
Hypothesis Htransport : Client.transport c = scripted.

Lemma scripted_ListKVStores i resp o log rest :
  Client.decodeListKVStoresResponse c (Response.Body resp) = (Some o, None) ->
  ListKVStores c i {| World.calls := log; World.remote := Ok resp :: rest |}
  = ((Some o, None),
     {| World.calls := log ++ [storesCall i]; World.remote := rest |}).
Proof.
  intros Hdec. rewrite ListKVStores_unfold, invoke_spec.
  cbn [World.calls World.remote fst snd]. rewrite Htransport.
  cbn [scripted fst snd]. by rewrite Hdec.
Qed.

Lemma scripted_Next i cur e page resp o log rest :
  Client.decodeListKVStoresResponse c (Response.Body resp) = (Some o, None) ->
  SP.Next (SP.mk c cur e false (Some i) page)
    {| World.calls := log; World.remote := Ok resp :: rest |}
  = (Returned true,
     (let next := GoMap.index (ListKVStoresResponse.Meta o) "next_cursor" in
      SP.mk c (if String.eqb next "" then cur else next) e
        (String.eqb next "")
        (Some (ListKVStoresInput.set_Cursor cur i))
        (ListKVStoresResponse.Data o)),
     {| World.calls :=
          log ++ [storesCall (Some (ListKVStoresInput.set_Cursor cur i))];
        World.remote := rest |}).
Proof.
  intros Hdec.
  rewrite (stores_Next_success _ _ i o
             {| World.calls :=
                  log ++ [storesCall (Some (ListKVStoresInput.set_Cursor cur i))];
                World.remote := rest |}); try done.
  - cbv zeta. by destruct (String.eqb _ "").
  - by apply scripted_ListKVStores.
Qed.
End Scripted.

(** C4.  Over a scripted transport that answers three list calls with
    responses whose next_cursor is "c1", "c2" and the empty string, four
    rounds of Next on a new stores paginator return true, true, true and
    false; after each of the first three the page accessor gives the items
    scripted for that call, and after the fourth it is empty.  Exactly
    three calls are issued, and they submit the empty cursor, then "c1",
    then "c2": each call submits the next_cursor of the response before
    it. *)
Theorem paginator_round_trip :
  forall (c : Client.t (list (result Response.t)))
         (i : ListKVStoresInput.t) (r1 r2 r3 : Response.t)
         (o1 o2 o3 : ListKVStoresResponse.t) (log : list Call),
    Client.transport c = scripted ->
    Client.decodeListKVStoresResponse c (Response.Body r1) = (Some o1, None) ->
    Client.decodeListKVStoresResponse c (Response.Body r2) = (Some o2, None) ->
    Client.decodeListKVStoresResponse c (Response.Body r3) = (Some o3, None) ->
    GoMap.index (ListKVStoresResponse.Meta o1) "next_cursor" = "c1" ->
    GoMap.index (ListKVStoresResponse.Meta o2) "next_cursor" = "c2" ->
    GoMap.index (ListKVStoresResponse.Meta o3) "next_cursor" = "" ->
    let w0 := {| World.calls := log; World.remote := [Ok r1; Ok r2; Ok r3] |} in
    let '(trace, l, w) :=
      advanceStores 4 (NewListKVStoresPaginator c (Some i)) w0 in
    trace = [ (Returned true, ListKVStoresResponse.Data o1);
              (Returned true, ListKVStoresResponse.Data o2);
              (Returned true, ListKVStoresResponse.Data o3);
              (Returned false, []) ]
    /\ submittedCursor <$> issued w0 w = [""; "c1"; "c2"]
    /\ World.remote w = []
    /\ SP.Err l = None /\ SP.finished l = true.
Proof.
  intros c i r1 r2 r3 o1 o2 o3 log Htr Hd1 Hd2 Hd3 Hc1 Hc2 Hc3 w0. subst w0.
  unfold NewListKVStoresPaginator. cbn [advanceStores].
  rewrite (scripted_Next c Htr _ _ _ _ r1 o1) by done. rewrite Hc1.
  change (String.eqb "c1" "") with false. cbv beta iota zeta.
  rewrite (scripted_Next c Htr _ _ _ _ r2 o2) by done. rewrite Hc2.
  change (String.eqb "c2" "") with false. cbv beta iota zeta.
  rewrite (scripted_Next c Htr _ _ _ _ r3 o3) by done. rewrite Hc3.
  change (String.eqb "" "") with true. cbv beta iota zeta.
  rewrite stores_Next_finished by done. cbv beta iota zeta.
  split_and!; try done.
  rewrite <- !app_assoc. cbn [app]. rewrite issued_app.
  cbn [fmap list_fmap]. by rewrite !storesCall_cursor.
Qed.

Lemma paginator_round_trip_witness :
  let '(trace, l, w) :=
    advanceStores 4
      (NewListKVStoresPaginator demoClient
         (Some {| ListKVStoresInput.Cursor := "stale";
                  ListKVStoresInput.Limit := 2 |}))
      (demoWorld [reply 200 "p1"; reply 200 "p2"; reply 200 "p3"]) in
  trace = [ (Returned true, [demoStore "a"; demoStore "b"]);
            (Returned true, [demoStore "c"]);
            (Returned true, [demoStore "d"]);
            (Returned false, []) ]
  /\ submittedCursor <$>
       issued (demoWorld [reply 200 "p1"; reply 200 "p2"; reply 200 "p3"]) w
     = [""; "c1"; "c2"]
  /\ World.remote w = []
  /\ SP.Err l = None /\ SP.finished l = true.
Proof.
  apply (paginator_round_trip demoClient
           {| ListKVStoresInput.Cursor := "stale"; ListKVStoresInput.Limit := 2 |}
           {| Response.StatusCode := 200; Response.Body := body "p1" |}
           {| Response.StatusCode := 200; Response.Body := body "p2" |}
           {| Response.StatusCode := 200; Response.Body := body "p3" |}
           {| ListKVStoresResponse.Data := [demoStore "a"; demoStore "b"];
              ListKVStoresResponse.Meta := demoMeta "c1" |}
           {| ListKVStoresResponse.Data := [demoStore "c"];
              ListKVStoresResponse.Meta := demoMeta "c2" |}
           {| ListKVStoresResponse.Data := [demoStore "d"];
              ListKVStoresResponse.Meta := demoMeta "" |}
           []); reflexivity.
Defined.

(** * Further properties of the operations *)

(** ** The filters, beyond the three cases of C7 *)

Lemma stores_filters_entries (l : ListKVStoresInput.t) (k v : string) :
  GoMap.lookup (ListKVStoresInput.formatFilters (Some l)) k = Some v ->
  (k = "limit" /\ ListKVStoresInput.Limit l <> 0%Z
   /\ v = Itoa (ListKVStoresInput.Limit l))
  \/ (k = "cursor" /\ ListKVStoresInput.Cursor l <> ""
      /\ v = ListKVStoresInput.Cursor l).
Proof.
  unfold ListKVStoresInput.formatFilters.
  destruct (Z.eqb_spec (ListKVStoresInput.Limit l) 0),
    (String.eqb_spec (ListKVStoresInput.Cursor l) ""); simpl;
    rewrite ?lookup_insert_Some, ?lookup_empty;
    intuition (subst; try discriminate; auto).
Qed.

Lemma keys_filters_entries (l : ListKVStoreKeysInput.t) (k v : string) :
  GoMap.lookup (ListKVStoreKeysInput.formatFilters (Some l)) k = Some v ->
  (k = "limit" /\ ListKVStoreKeysInput.Limit l <> 0%Z
   /\ v = Itoa (ListKVStoreKeysInput.Limit l))
  \/ (k = "cursor" /\ ListKVStoreKeysInput.Cursor l <> ""
      /\ v = ListKVStoreKeysInput.Cursor l).
Proof.
  unfold ListKVStoreKeysInput.formatFilters.
  destruct (Z.eqb_spec (ListKVStoreKeysInput.Limit l) 0),
    (String.eqb_spec (ListKVStoreKeysInput.Cursor l) ""); simpl;
    rewrite ?lookup_insert_Some, ?lookup_empty;
    intuition (subst; try discriminate; auto).
Qed.

(** X1.  formatFilters emits nothing but "limit" and "cursor": every entry
    of the map it returns is the limit parameter of a non-zero Limit, with
    its decimal rendering, or the cursor parameter of a non-empty Cursor,
    with the Cursor.  Both input types. *)
Theorem formatFilters_only_limit_and_cursor :
  (forall (l : ListKVStoresInput.t) (k v : string),
     GoMap.lookup (ListKVStoresInput.formatFilters (Some l)) k = Some v ->
     (k = "limit" /\ ListKVStoresInput.Limit l <> 0%Z
      /\ v = Itoa (ListKVStoresInput.Limit l))
     \/ (k = "cursor" /\ ListKVStoresInput.Cursor l <> ""
         /\ v = ListKVStoresInput.Cursor l))
  /\ (forall (l : ListKVStoreKeysInput.t) (k v : string),
     GoMap.lookup (ListKVStoreKeysInput.formatFilters (Some l)) k = Some v ->
     (k = "limit" /\ ListKVStoreKeysInput.Limit l <> 0%Z
      /\ v = Itoa (ListKVStoreKeysInput.Limit l))
     \/ (k = "cursor" /\ ListKVStoreKeysInput.Cursor l <> ""
         /\ v = ListKVStoreKeysInput.Cursor l)).
Proof. split; [apply stores_filters_entries | apply keys_filters_entries]. Qed.

Lemma formatFilters_only_limit_and_cursor_witness :
  ("limit" = "limit" /\ 25%Z <> 0%Z /\ "25" = Itoa 25)
  \/ ("limit" = "cursor" /\ "c1" <> "" /\ "25" = "c1").
Proof.
  apply (proj1 formatFilters_only_limit_and_cursor
           {| ListKVStoresInput.Cursor := "c1"; ListKVStoresInput.Limit := 25 |}
           "limit" "25").
  reflexivity.
Defined.

(** X2.  formatFilters returns the nil map or a map with at least one
    entry, never an empty map that is not nil; and it returns the nil map
    exactly for a nil receiver and for Limit 0 with an empty Cursor.  Both
    input types. *)
Theorem formatFilters_nil_or_inhabited :
  (forall l : option ListKVStoresInput.t,
     (ListKVStoresInput.formatFilters l = None
      <-> l = None
          \/ exists i, l = Some i /\ ListKVStoresInput.Limit i = 0%Z
                       /\ ListKVStoresInput.Cursor i = "")
     /\ (forall m, ListKVStoresInput.formatFilters l = Some m -> m <> ∅))
  /\ (forall l : option ListKVStoreKeysInput.t,
     (ListKVStoreKeysInput.formatFilters l = None
      <-> l = None
          \/ exists i, l = Some i /\ ListKVStoreKeysInput.Limit i = 0%Z
                       /\ ListKVStoreKeysInput.Cursor i = "")
     /\ (forall m, ListKVStoreKeysInput.formatFilters l = Some m -> m <> ∅)).
Proof.
  split; intros [i |]; (split; [split |]);
    try (by left); try done.
  - unfold ListKVStoresInput.formatFilters.
    destruct (Z.eqb_spec (ListKVStoresInput.Limit i) 0),
      (String.eqb_spec (ListKVStoresInput.Cursor i) ""); simpl;
      try discriminate. intros _. right. by exists i.
  - intros [? | (i' & [= <-] & Hl & Hc)]; [done |].
    by apply stores_filters_default.
  - unfold ListKVStoresInput.formatFilters.
    destruct (Z.eqb_spec (ListKVStoresInput.Limit i) 0),
      (String.eqb_spec (ListKVStoresInput.Cursor i) ""); simpl;
      intros m [= <-]; try apply insert_non_empty.
  - unfold ListKVStoreKeysInput.formatFilters.
    destruct (Z.eqb_spec (ListKVStoreKeysInput.Limit i) 0),
      (String.eqb_spec (ListKVStoreKeysInput.Cursor i) ""); simpl;
      try discriminate. intros _. right. by exists i.
  - intros [? | (i' & [= <-] & Hl & Hc)]; [done |].
    by apply keys_filters_default.
  - unfold ListKVStoreKeysInput.formatFilters.
    destruct (Z.eqb_spec (ListKVStoreKeysInput.Limit i) 0),
      (String.eqb_spec (ListKVStoreKeysInput.Cursor i) ""); simpl;
      intros m [= <-]; try apply insert_non_empty.
Qed.

(** ** The calls the operations issue *)

(** X3.  Every operation issues at most one call: none when a required
    field is empty, and otherwise exactly the one call of its verb on its
    path.  CreateKVStore posts its input; GetKVStore, DeleteKVStore,
    GetKVStoreKey and DeleteKVStoreKey pass no request options;
    ListKVStores issues its call for every input, a nil one included. *)
Theorem operations_issue_at_most_one_call :
  forall (T : Type) (c : Client.t T) (w : World.t T),
    (forall i, issued w (snd (CreateKVStore c i w))
       = if String.eqb (CreateKVStoreInput.Name i) "" then []
         else [CallPostJSON "/resources/stores/kv" i None])
    /\ (forall i, issued w (snd (ListKVStores c i w)) = [storesCall i])
    /\ (forall i, issued w (snd (GetKVStore c i w))
       = if String.eqb (GetKVStoreInput.ID i) "" then []
         else [CallGet (storePath (GetKVStoreInput.ID i)) None])
    /\ (forall i, issued w (snd (DeleteKVStore c i w))
       = if String.eqb (DeleteKVStoreInput.ID i) "" then []
         else [CallDelete (storePath (DeleteKVStoreInput.ID i)) None])
    /\ (forall i, issued w (snd (ListKVStoreKeys c i w))
       = if String.eqb (ListKVStoreKeysInput.ID i) "" then []
         else [keysCall i])
    /\ (forall i, issued w (snd (GetKVStoreKey c i w))
       = if String.eqb (GetKVStoreKeyInput.ID i) ""
            || String.eqb (GetKVStoreKeyInput.Key i) "" then []
         else [CallGet (keyPath (GetKVStoreKeyInput.ID i)
                          (GetKVStoreKeyInput.Key i)) None])
    /\ (forall i, issued w (snd (InsertKVStoreKey c i w))
       = if String.eqb (InsertKVStoreKeyInput.ID i) ""
            || String.eqb (InsertKVStoreKeyInput.Key i) "" then []
         else [CallPut (keyPath (InsertKVStoreKeyInput.ID i)
                          (InsertKVStoreKeyInput.Key i))
                 (Some {| RequestOptions.Params := None;
                          RequestOptions.Body :=
                            Some (InsertKVStoreKeyInput.Value i) |})])
    /\ (forall i, issued w (snd (DeleteKVStoreKey c i w))
       = if String.eqb (DeleteKVStoreKeyInput.ID i) ""
            || String.eqb (DeleteKVStoreKeyInput.Key i) "" then []
         else [CallDelete (keyPath (DeleteKVStoreKeyInput.ID i)
                             (DeleteKVStoreKeyInput.Key i)) None]).
Proof.
  intros T c w. split_and!; intros i.
  - unfold CreateKVStore, PostJSON. case_match; [apply issued_nil |].
    rewrite invoke_spec.
    repeat case_match; simpl; apply issued_app.
  - apply ListKVStores_issued.
  - unfold GetKVStore, Get, storePath. case_match; [apply issued_nil |].
    rewrite invoke_spec.
    repeat case_match; simpl; apply issued_app.
  - unfold DeleteKVStore, Delete, storePath. case_match; [apply issued_nil |].
    rewrite invoke_spec.
    repeat case_match; simpl; apply issued_app.
  - destruct (String.eqb_spec (ListKVStoreKeysInput.ID i) "") as [E | E].
    + unfold ListKVStoreKeys. rewrite (eqb_empty_true _ E). apply issued_nil.
    + by apply ListKVStoreKeys_issued.
  - unfold GetKVStoreKey, Get, keyPath.
    case_match; [apply issued_nil |]. case_match; [apply issued_nil |].
    cbn [orb]. rewrite invoke_spec.
    repeat case_match; simpl; apply issued_app.
  - unfold InsertKVStoreKey, Put, keyPath.
    case_match; [apply issued_nil |]. case_match; [apply issued_nil |].
    cbn [orb]. rewrite invoke_spec.
    repeat case_match; simpl; apply issued_app.
  - unfold DeleteKVStoreKey, Delete, keyPath.
    case_match; [apply issued_nil |]. case_match; [apply issued_nil |].
    cbn [orb]. rewrite invoke_spec.
    repeat case_match; simpl; apply issued_app.
Qed.

(** ** Errors of the transport and of the decoder *)

(** X4.  An error of the transport is handed over unchanged: when the
    verb an operation invokes comes back with an error, the operation
    returns that very error, with a nil result (the empty string for
    GetKVStoreKey), in the world the verb left.  All eight operations. *)
Theorem transport_error_is_returned_unchanged :
  forall (T : Type) (c : Client.t T) (w w' : World.t T) (e : error),
    (forall i, CreateKVStoreInput.Name i <> "" ->
       PostJSON c "/resources/stores/kv" i None w = (Err e, w') ->
       CreateKVStore c i w = ((None, Some e), w'))
    /\ (forall i, invoke c (storesCall i) w = (Err e, w') ->
       ListKVStores c i w = ((None, Some e), w'))
    /\ (forall i, GetKVStoreInput.ID i <> "" ->
       Get c (storePath (GetKVStoreInput.ID i)) None w = (Err e, w') ->
       GetKVStore c i w = ((None, Some e), w'))
    /\ (forall i, DeleteKVStoreInput.ID i <> "" ->
       Delete c (storePath (DeleteKVStoreInput.ID i)) None w = (Err e, w') ->
       DeleteKVStore c i w = (Some e, w'))
    /\ (forall i, ListKVStoreKeysInput.ID i <> "" ->
       invoke c (keysCall i) w = (Err e, w') ->
       ListKVStoreKeys c i w = ((None, Some e), w'))
    /\ (forall i, GetKVStoreKeyInput.ID i <> "" ->
       GetKVStoreKeyInput.Key i <> "" ->
       Get c (keyPath (GetKVStoreKeyInput.ID i) (GetKVStoreKeyInput.Key i))
         None w = (Err e, w') ->
       GetKVStoreKey c i w = (("", Some e), w'))
    /\ (forall i, InsertKVStoreKeyInput.ID i <> "" ->
       InsertKVStoreKeyInput.Key i <> "" ->
       Put c (keyPath (InsertKVStoreKeyInput.ID i) (InsertKVStoreKeyInput.Key i))
         (Some {| RequestOptions.Params := None;
                  RequestOptions.Body := Some (InsertKVStoreKeyInput.Value i) |})
         w = (Err e, w') ->
       InsertKVStoreKey c i w = (Some e, w'))
    /\ (forall i, DeleteKVStoreKeyInput.ID i <> "" ->
       DeleteKVStoreKeyInput.Key i <> "" ->
       Delete c (keyPath (DeleteKVStoreKeyInput.ID i)
                   (DeleteKVStoreKeyInput.Key i)) None w = (Err e, w') ->
       DeleteKVStoreKey c i w = (Some e, w')).
Proof.
  intros T c w w' e. split_and!.
  - intros i Hn H. unfold CreateKVStore.
    by rewrite (eqb_empty_false _ Hn), H.
  - intros i H. rewrite ListKVStores_unfold. by rewrite H.
  - intros i Hid H. unfold GetKVStore. fold (storePath (GetKVStoreInput.ID i)).
    by rewrite (eqb_empty_false _ Hid), H.
  - intros i Hid H. unfold DeleteKVStore.
    fold (storePath (DeleteKVStoreInput.ID i)).
    by rewrite (eqb_empty_false _ Hid), H.
  - intros i Hid H. rewrite (ListKVStoreKeys_unfold _ _ _ Hid). by rewrite H.
  - intros i Hid Hkey H. unfold GetKVStoreKey.
    fold (keyPath (GetKVStoreKeyInput.ID i) (GetKVStoreKeyInput.Key i)).
    by rewrite (eqb_empty_false _ Hid), (eqb_empty_false _ Hkey), H.
  - intros i Hid Hkey H. unfold InsertKVStoreKey.
    fold (keyPath (InsertKVStoreKeyInput.ID i) (InsertKVStoreKeyInput.Key i)).
    by rewrite (eqb_empty_false _ Hid), (eqb_empty_false _ Hkey), H.
  - intros i Hid Hkey H. unfold DeleteKVStoreKey.
    fold (keyPath (DeleteKVStoreKeyInput.ID i) (DeleteKVStoreKeyInput.Key i)).
    by rewrite (eqb_empty_false _ Hid), (eqb_empty_false _ Hkey), H.
Qed.

Lemma transport_error_is_returned_unchanged_witness :
  GetKVStore demoClient {| GetKVStoreInput.ID := "s1" |}
    (demoWorld [Err (ExternalError "connection refused")])
  = ((None, Some (ExternalError "connection refused")),
     {| World.calls := [CallGet "/resources/stores/kv/s1" None];
        World.remote := [] |})
  /\ InsertKVStoreKey demoClient
       {| InsertKVStoreKeyInput.ID := "s1"; InsertKVStoreKeyInput.Key := "k";
          InsertKVStoreKeyInput.Value := "v" |}
       (demoWorld [Err (HTTPError notFound)])
     = (Some (HTTPError notFound),
        {| World.calls :=
             [CallPut "/resources/stores/kv/s1/keys/k"
                (Some {| RequestOptions.Params := None;
                         RequestOptions.Body := Some "v" |})];
           World.remote := [] |}).
Proof.
  split.
  - apply (proj1 (proj2 (proj2 (transport_error_is_returned_unchanged _
             demoClient (demoWorld [Err (ExternalError "connection refused")])
             _ _)))
             {| GetKVStoreInput.ID := "s1" |});
      [discriminate | reflexivity].
  - apply (proj1 (proj2 (proj2 (proj2 (proj2 (proj2 (proj2
             (transport_error_is_returned_unchanged _
                demoClient (demoWorld [Err (HTTPError notFound)]) _ _)))))))
             {| InsertKVStoreKeyInput.ID := "s1"; InsertKVStoreKeyInput.Key := "k";
                InsertKVStoreKeyInput.Value := "v" |});
      [discriminate | discriminate | reflexivity].
Defined.

(** X5.  What the decoder decides: when the verb comes back with a
    response, CreateKVStore, GetKVStore, ListKVStores and ListKVStoreKeys
    return the error of decodeBodyMap with a nil result, whatever the
    decoder had written through the pointer by then, and when the decoder
    reports no error they return the pointer as the decoder left it. *)
Theorem decoder_decides_the_result :
  forall (T : Type) (c : Client.t T) (w w' : World.t T) (resp : Response.t),
    let settle := fun (A : Type) (d : option A * option error) =>
      match d with
      | (_, Some e) => (None, Some e)
      | (p, None) => (p, None)
      end in
    (forall i, CreateKVStoreInput.Name i <> "" ->
       PostJSON c "/resources/stores/kv" i None w = (Ok resp, w') ->
       CreateKVStore c i w
       = (settle _ (Client.decodeKVStore c (Response.Body resp)), w'))
    /\ (forall i, invoke c (storesCall i) w = (Ok resp, w') ->
       ListKVStores c i w
       = (settle _ (Client.decodeListKVStoresResponse c (Response.Body resp)),
          w'))
    /\ (forall i, GetKVStoreInput.ID i <> "" ->
       Get c (storePath (GetKVStoreInput.ID i)) None w = (Ok resp, w') ->
       GetKVStore c i w
       = (settle _ (Client.decodeKVStore c (Response.Body resp)), w'))
    /\ (forall i, ListKVStoreKeysInput.ID i <> "" ->
       invoke c (keysCall i) w = (Ok resp, w') ->
       ListKVStoreKeys c i w
       = (settle _ (Client.decodeListKVStoreKeysResponse c (Response.Body resp)),
          w')).
Proof.
  intros T c w w' resp settle. subst settle. split_and!.
  - intros i Hn H. unfold CreateKVStore.
    rewrite (eqb_empty_false _ Hn), H.
    by destruct (Client.decodeKVStore c _) as [p [e |]].
  - intros i H. rewrite ListKVStores_unfold. rewrite H. simpl.
    by destruct (Client.decodeListKVStoresResponse c _) as [p [e |]].
  - intros i Hid H. unfold GetKVStore. fold (storePath (GetKVStoreInput.ID i)).
    rewrite (eqb_empty_false _ Hid), H.
    by destruct (Client.decodeKVStore c _) as [p [e |]].
  - intros i Hid H. rewrite (ListKVStoreKeys_unfold _ _ _ Hid). rewrite H. simpl.
    by destruct (Client.decodeListKVStoreKeysResponse c _) as [p [e |]].
Qed.

Lemma decoder_decides_the_result_witness :
  CreateKVStore demoClient {| CreateKVStoreInput.Name := "store-a" |}
    (demoWorld [reply 200 "a"])
  = ((Some (demoStore "a"), None),
     {| World.calls :=
          [CallPostJSON "/resources/stores/kv"
             {| CreateKVStoreInput.Name := "store-a" |} None];
        World.remote := [] |})
  /\ GetKVStore demoClient {| GetKVStoreInput.ID := "zz" |}
       (demoWorld [reply 200 "not json"])
     = ((None, Some (ExternalError "unexpected end of JSON input")),
        {| World.calls := [CallGet "/resources/stores/kv/zz" None];
           World.remote := [] |}).
Proof.
  split.
  - apply (proj1 (decoder_decides_the_result _ demoClient
                    (demoWorld [reply 200 "a"]) _
                    {| Response.StatusCode := 200; Response.Body := body "a" |})
             {| CreateKVStoreInput.Name := "store-a" |});
      [discriminate | reflexivity].
  - apply (proj1 (proj2 (proj2 (decoder_decides_the_result _ demoClient
                    (demoWorld [reply 200 "not json"]) _
                    {| Response.StatusCode := 200;
                       Response.Body := body "not json" |})))
             {| GetKVStoreInput.ID := "zz" |});
      [discriminate | reflexivity].
Defined.

(** X6.  GetKVStoreKey returns the body as it is read: when the Get verb
    comes back with a response, the result is the bytes of the body with
    no error, or the empty string with the read error when reading the
    body fails; no decoder is consulted and the status code is not looked
    at. *)
Theorem GetKVStoreKey_returns_raw_body :
  forall (T : Type) (c : Client.t T) (w w' : World.t T) (resp : Response.t)
         (i : GetKVStoreKeyInput.t),
    GetKVStoreKeyInput.ID i <> "" -> GetKVStoreKeyInput.Key i <> "" ->
    Get c (keyPath (GetKVStoreKeyInput.ID i) (GetKVStoreKeyInput.Key i)) None w
    = (Ok resp, w') ->
    GetKVStoreKey c i w
    = (match Reader.failure (Response.Body resp) with
       | None => (Reader.data (Response.Body resp), None)
       | Some msg => ("", Some (ExternalError msg))
       end, w').
Proof.
  intros T c w w' resp i Hid Hkey H. unfold GetKVStoreKey.
  fold (keyPath (GetKVStoreKeyInput.ID i) (GetKVStoreKeyInput.Key i)).
  rewrite (eqb_empty_false _ Hid), (eqb_empty_false _ Hkey), H.
  unfold ReadAll. by destruct (Reader.failure (Response.Body resp)).
Qed.

Lemma GetKVStoreKey_returns_raw_body_witness :
  GetKVStoreKey demoClient
    {| GetKVStoreKeyInput.ID := "s1"; GetKVStoreKeyInput.Key := "k" |}
    (demoWorld [Ok {| Response.StatusCode := 500;
                      Response.Body := {| Reader.data := "par";
                                          Reader.failure := Some "EOF" |} |}])
  = (("", Some (ExternalError "EOF")),
     {| World.calls := [CallGet "/resources/stores/kv/s1/keys/k" None];
        World.remote := [] |}).
Proof.
  apply (GetKVStoreKey_returns_raw_body _ demoClient _ _
           {| Response.StatusCode := 500;
              Response.Body := {| Reader.data := "par";
                                  Reader.failure := Some "EOF" |} |}
           {| GetKVStoreKeyInput.ID := "s1"; GetKVStoreKeyInput.Key := "k" |});
    [discriminate | discriminate | reflexivity].
Defined.

(** * Further properties of the paginators *)

(** X7.  ListKVStoreKeys validates the store ID as the key operations do:
    with an empty ID it returns the missing-id error and a nil response
    and issues no call.  Inside a keys paginator that error takes the path
    of every failed list call: the first Next of a paginator built on such
    an input records ErrMissingID, sets finished and panics on the nil
    response, and the transport is never contacted. *)
Theorem ListKVStoreKeys_requires_id :
  forall (T : Type) (c : Client.t T) (w : World.t T)
         (i : ListKVStoreKeysInput.t),
    ListKVStoreKeysInput.ID i = "" ->
    ListKVStoreKeys c i w = ((None, Some ErrMissingID), w)
    /\ let '(r, l', w') := KP.Next (NewListKVStoreKeysPaginator c (Some i)) w in
       r = Panicked (NilDereference "o.Data")
       /\ KP.Err l' = Some ErrMissingID /\ KP.finished l' = true
       /\ KP.Keys l' = [] /\ w' = w.
Proof.
  intros T c w i Hid.
  assert (E : forall j, ListKVStoreKeysInput.ID j = "" ->
                ListKVStoreKeys c j w = ((None, Some ErrMissingID), w)).
  { intros j Hj. unfold ListKVStoreKeys. by rewrite (eqb_empty_true _ Hj). }
  split; [by apply E |].
  rewrite (keys_Next_error _ w i None ErrMissingID w); try done.
  by apply E.
Qed.

Lemma ListKVStoreKeys_requires_id_witness :
  ListKVStoreKeys demoClient
    {| ListKVStoreKeysInput.Cursor := "c1"; ListKVStoreKeysInput.ID := "";
       ListKVStoreKeysInput.Limit := 10 |}
    (demoWorld [reply 200 "p1"])
  = ((None, Some ErrMissingID), demoWorld [reply 200 "p1"]).
Proof.
  apply (ListKVStoreKeys_requires_id _ demoClient (demoWorld [reply 200 "p1"])
           {| ListKVStoreKeysInput.Cursor := "c1"; ListKVStoreKeysInput.ID := "";
              ListKVStoreKeysInput.Limit := 10 |}).
  reflexivity.
Defined.

(** X8.  A nil input is served by ListKVStores, which issues its call with
    no query parameters, but not by the paginators: the constructors
    accept it, and the first Next then panics on writing the cursor
    through the nil pointer, before any call, leaving the paginator as it
    was.  Both paginators. *)
Theorem paginator_over_nil_input_panics :
  forall (T : Type) (c : Client.t T) (w : World.t T),
    issued w (snd (ListKVStores c None w))
    = [CallGet "/resources/stores/kv" (Some RequestOptions.new)]
    /\ SP.Next (NewListKVStoresPaginator c None) w
       = (Panicked (NilDereference "l.input.Cursor"),
          NewListKVStoresPaginator c None, w)
    /\ KP.Next (NewListKVStoreKeysPaginator c None) w
       = (Panicked (NilDereference "l.input.Cursor"),
          NewListKVStoreKeysPaginator c None, w).
Proof.
  intros T c w. split_and!.
  - apply ListKVStores_issued.
  - by apply stores_Next_nil_input.
  - by apply keys_Next_nil_input.
Qed.

(** ** What a call of Next that comes back has done *)

Section Returned.
Context {T : Type}.

Lemma stores_Next_returned (l l' : SP.t T) (w w' : World.t T) (b : bool) :
  SP.Next l w = (Returned b, l', w') ->
  SP.Err l' = SP.Err l
  /\ (b = false <-> SP.finished l = true)
  /\ (SP.cursor l' <> SP.cursor l ->
      SP.cursor l' <> "" /\ SP.finished l' = false).
Proof.
  unfold SP.Next.
  destruct (SP.finished l) eqn:Hf.
  { intros [= <- <- <-]. by split_and!. }
  destruct (SP.input l) as [i |] eqn:Hi; [| discriminate].
  simpl.
  destruct (ListKVStores _ _ w) as [[o e] w1] eqn:Hcall.
  destruct e as [e |].
  { rewrite (ListKVStores_error _ _ _ _ _ _ Hcall). discriminate. }
  destruct o as [o |]; [| discriminate].
  destruct (String.eqb_spec
              (GoMap.index (ListKVStoresResponse.Meta o) "next_cursor") "")
    as [E | E]; intros [= <- <- <-]; simpl; split_and!; try done.
  all: split; intros; done.
Qed.

Lemma keys_Next_returned (l l' : KP.t T) (w w' : World.t T) (b : bool) :
  KP.Next l w = (Returned b, l', w') ->
  KP.Err l' = KP.Err l
  /\ (b = false <-> KP.finished l = true)
  /\ (KP.cursor l' <> KP.cursor l ->
      KP.cursor l' <> "" /\ KP.finished l' = false).
Proof.
  unfold KP.Next.
  destruct (KP.finished l) eqn:Hf.
  { intros [= <- <- <-]. by split_and!. }
  destruct (KP.input l) as [i |] eqn:Hi; [| discriminate].
  simpl.
  destruct (ListKVStoreKeys _ _ w) as [[o e] w1] eqn:Hcall.
  destruct e as [e |].
  { rewrite (ListKVStoreKeys_error _ _ _ _ _ _ Hcall). discriminate. }
  destruct o as [o |]; [| discriminate].
  destruct (String.eqb_spec
              (GoMap.index (ListKVStoreKeysResponse.Meta o) "next_cursor") "")
    as [E | E]; intros [= <- <- <-]; simpl; split_and!; try done.
  all: split; intros; done.
Qed.
End Returned.

(** X9.  Next returns false only on a paginator that had finished before
    the call, and always there: on a paginator that has not finished, a
    call that comes back returns true, also for the last page and for an
    empty one.  Both paginators. *)
Theorem Next_false_iff_finished :
  forall (T : Type) (w : World.t T),
    (forall l : SP.t T,
       fst (fst (SP.Next l w)) = Returned false <-> SP.finished l = true)
    /\ (forall l : KP.t T,
       fst (fst (KP.Next l w)) = Returned false <-> KP.finished l = true).
Proof.
  intros T w. split; intros l; split.
  - destruct (SP.Next l w) as [[r l'] w'] eqn:E. simpl. intros ->.
    by apply (stores_Next_returned _ _ _ _ _ E).
  - intros Hf. by rewrite stores_Next_finished.
  - destruct (KP.Next l w) as [[r l'] w'] eqn:E. simpl. intros ->.
    by apply (keys_Next_returned _ _ _ _ _ E).
  - intros Hf. by rewrite keys_Next_finished.
Qed.

(** ** Runs of the caller's loop *)

Section Runs.
Context {T : Type}.

Lemma advanceStores_err (n : nat) :
  forall (l : SP.t T) (w : World.t T),
    let '(trace, l', _) := advanceStores n l w in
    Forall (fun rp => returned (fst rp) = true) trace ->
    SP.Err l' = SP.Err l.
Proof.
  induction n as [| n IH]; intros l w; cbn [advanceStores]; [done |].
  destruct (SP.Next l w) as [[r l1] w1] eqn:E.
  destruct r as [b | p].
  - specialize (IH l1 w1).
    destruct (advanceStores n l1 w1) as [[rest l2] w2].
    intros HF. apply Forall_cons in HF as [_ HF].
    rewrite (IH HF). by apply (stores_Next_returned _ _ _ _ _ E).
  - intros HF. apply Forall_cons in HF as [HF _]. discriminate.
Qed.

Lemma advanceKeys_err (n : nat) :
  forall (l : KP.t T) (w : World.t T),
    let '(trace, l', _) := advanceKeys n l w in
    Forall (fun rp => returned (fst rp) = true) trace ->
    KP.Err l' = KP.Err l.
Proof.
  induction n as [| n IH]; intros l w; cbn [advanceKeys]; [done |].
  destruct (KP.Next l w) as [[r l1] w1] eqn:E.
  destruct r as [b | p].
  - specialize (IH l1 w1).
    destruct (advanceKeys n l1 w1) as [[rest l2] w2].
    intros HF. apply Forall_cons in HF as [_ HF].
    rewrite (IH HF). by apply (keys_Next_returned _ _ _ _ _ E).
  - intros HF. apply Forall_cons in HF as [HF _]. discriminate.
Qed.

Lemma advanceStores_finished (n : nat) :
  forall (l : SP.t T) (w : World.t T),
    SP.finished l = true ->
    advanceStores n l w
    = (replicate n (Returned false, []),
       match n with O => l | S _ => SP.set_stores [] l end, w).
Proof.
  induction n as [| n IH]; intros l w Hf; cbn [advanceStores]; [done |].
  rewrite (stores_Next_finished l w Hf).
  rewrite (IH (SP.set_stores [] l) w Hf). simpl. by destruct n.
Qed.

Lemma advanceKeys_finished (n : nat) :
  forall (l : KP.t T) (w : World.t T),
    KP.finished l = true ->
    advanceKeys n l w
    = (replicate n (Returned false, []),
       match n with O => l | S _ => KP.set_keys [] l end, w).
Proof.
  induction n as [| n IH]; intros l w Hf; cbn [advanceKeys]; [done |].
  rewrite (keys_Next_finished l w Hf).
  rewrite (IH (KP.set_keys [] l) w Hf). simpl. by destruct n.
Qed.
End Runs.

(** X10.  The error accessor cannot be reached without a panic: over any
    number of rounds of the caller's loop in which every Next comes back,
    Err is what it was at the start, so on a new paginator it is nil.  A
    list call that fails does set the error, but that same Next then
    panics.  Both paginators. *)
Theorem Err_is_set_only_by_a_panicking_Next :
  forall (T : Type) (n : nat) (w : World.t T),
    (forall l : SP.t T,
       let '(trace, l', _) := advanceStores n l w in
       Forall (fun rp => returned (fst rp) = true) trace ->
       SP.Err l' = SP.Err l)
    /\ (forall l : KP.t T,
       let '(trace, l', _) := advanceKeys n l w in
       Forall (fun rp => returned (fst rp) = true) trace ->
       KP.Err l' = KP.Err l)
    /\ (forall c i,
       let '(trace, l', _) :=
         advanceStores n (NewListKVStoresPaginator c i) w in
       Forall (fun rp => returned (fst rp) = true) trace ->
       SP.Err l' = None)
    /\ (forall c i,
       let '(trace, l', _) :=
         advanceKeys n (NewListKVStoreKeysPaginator c i) w in
       Forall (fun rp => returned (fst rp) = true) trace ->
       KP.Err l' = None).
Proof.
  intros T n w. split_and!.
  - intros l. apply advanceStores_err.
  - intros l. apply advanceKeys_err.
  - intros c i. apply (advanceStores_err n (NewListKVStoresPaginator c i) w).
  - intros c i. apply (advanceKeys_err n (NewListKVStoreKeysPaginator c i) w).
Qed.

Lemma Err_is_set_only_by_a_panicking_Next_witness :
  let '(trace, l', _) :=
    advanceStores 5
      (NewListKVStoresPaginator demoClient
         (Some {| ListKVStoresInput.Cursor := ""; ListKVStoresInput.Limit := 0 |}))
      (demoWorld [reply 200 "p1"; reply 200 "p3"; reply 200 "p2"]) in
  Forall (fun rp => returned (fst rp) = true) trace /\ SP.Err l' = None.
Proof.
  pose proof (proj1 (proj2 (proj2 (Err_is_set_only_by_a_panicking_Next _ 5
                (demoWorld [reply 200 "p1"; reply 200 "p3"; reply 200 "p2"]))))
                demoClient
                (Some {| ListKVStoresInput.Cursor := "";
                         ListKVStoresInput.Limit := 0 |})) as H.
  assert (E : fst (fst (advanceStores 5
                (NewListKVStoresPaginator demoClient
                   (Some {| ListKVStoresInput.Cursor := "";
                            ListKVStoresInput.Limit := 0 |}))
                (demoWorld [reply 200 "p1"; reply 200 "p3"; reply 200 "p2"])))
              = [ (Returned true, [demoStore "a"; demoStore "b"]);
                  (Returned true, [demoStore "d"]);
                  (Returned false, []); (Returned false, []);
                  (Returned false, []) ]) by (vm_compute; reflexivity).
  destruct (advanceStores 5 _ _) as [[trace l'] w']. simpl in E. subst trace.
  assert (HF : Forall (fun rp : outcome bool * list KVStore.t =>
                         returned (fst rp) = true)
                 [ (Returned true, [demoStore "a"; demoStore "b"]);
                   (Returned true, [demoStore "d"]);
                   (Returned false, []); (Returned false, []);
                   (Returned false, []) ])
    by (repeat constructor).
  split; [exact HF | exact (H HF)].
Defined.

(** X11.  Exhaustion is stable over any number of rounds: on a paginator
    that has finished, n rounds of the caller's loop give n times false
    with an empty page, issue no call, and leave the paginator as it was
    but for the emptied page.  Both paginators. *)
Theorem finished_paginator_stays_finished :
  forall (T : Type) (n : nat) (w : World.t T),
    (forall l : SP.t T,
       SP.finished l = true ->
       advanceStores n l w
       = (replicate n (Returned false, []),
          match n with O => l | S _ => SP.set_stores [] l end, w))
    /\ (forall l : KP.t T,
       KP.finished l = true ->
       advanceKeys n l w
       = (replicate n (Returned false, []),
          match n with O => l | S _ => KP.set_keys [] l end, w)).
Proof.
  intros T n w. split; intros l Hf.
  - by apply advanceStores_finished.
  - by apply advanceKeys_finished.
Qed.

Lemma finished_paginator_stays_finished_witness :
  advanceStores 3 demoFinishedStores (demoWorld [reply 200 "p1"])
  = ([(Returned false, []); (Returned false, []); (Returned false, [])],
     SP.set_stores [] demoFinishedStores, demoWorld [reply 200 "p1"])
  /\ advanceKeys 2 demoFinishedKeys (demoWorld [reply 200 "p1"])
     = ([(Returned false, []); (Returned false, [])],
        KP.set_keys [] demoFinishedKeys, demoWorld [reply 200 "p1"]).
Proof.
  split.
  - apply (proj1 (finished_paginator_stays_finished _ 3
                    (demoWorld [reply 200 "p1"])) demoFinishedStores).
    reflexivity.
  - apply (proj2 (finished_paginator_stays_finished _ 2
                    (demoWorld [reply 200 "p1"])) demoFinishedKeys).
    reflexivity.
Defined.

(** ** The cursor and the input over a step *)

(** X12.  The Cursor of the input handed to a constructor is never used:
    the first Next overwrites it with the empty cursor of the new
    paginator, so two inputs that differ only in their Cursor give the
    same first step, with the same call, result and paginator.  The call
    of that step submits the empty cursor: a stores paginator always
    issues it, a keys paginator issues it when the store ID is not empty
    and issues no call at all when it is. *)
Theorem paginator_ignores_the_input_cursor :
  forall (T : Type) (c : Client.t T) (w : World.t T) (x : string),
    (forall i : ListKVStoresInput.t,
       SP.Next (NewListKVStoresPaginator c
                  (Some (ListKVStoresInput.set_Cursor x i))) w
       = SP.Next (NewListKVStoresPaginator c (Some i)) w
       /\ submittedCursor <$>
            issued w (snd (SP.Next (NewListKVStoresPaginator c (Some i)) w))
          = [""])
    /\ (forall i : ListKVStoreKeysInput.t,
       KP.Next (NewListKVStoreKeysPaginator c
                  (Some (ListKVStoreKeysInput.set_Cursor x i))) w
       = KP.Next (NewListKVStoreKeysPaginator c (Some i)) w
       /\ submittedCursor <$>
            issued w (snd (KP.Next (NewListKVStoreKeysPaginator c (Some i)) w))
          = if String.eqb (ListKVStoreKeysInput.ID i) "" then [] else [""]).
Proof.
  intros T c w x. split; intros i.
  - split; [reflexivity |].
    rewrite (stores_Next_issued _ w i) by done.
    exact (f_equal (fun k => [k]) (storesCall_cursor "" i)).
  - split; [reflexivity |].
    destruct (String.eqb_spec (ListKVStoreKeysInput.ID i) "") as [Hid | Hid].
    + rewrite (keys_Next_error _ w i None ErrMissingID w); try done.
      * simpl. by rewrite issued_nil.
      * unfold ListKVStoreKeys. simpl. by rewrite (eqb_empty_true _ Hid).
    + rewrite (keys_Next_issued _ w i) by done.
      exact (f_equal (fun k => [k]) (keysCall_cursor "" i)).
Qed.

Section Cursor.
Context {T : Type}.

Lemma stores_Next_cursor (l : SP.t T) (w : World.t T) :
  let '(r, l', _) := SP.Next l w in
  SP.cursor l' <> SP.cursor l ->
  r = Returned true /\ SP.cursor l' <> "" /\ SP.finished l' = false.
Proof.
  destruct (SP.Next l w) as [[r l'] w'] eqn:E. intros Hc.
  destruct r as [b | p].
  - destruct (stores_Next_returned _ _ _ _ _ E) as (_ & Hb & Hcur).
    destruct (Hcur Hc) as [Hne Hf]. split_and!; try done.
    destruct b; [done |]. exfalso.
    rewrite (stores_Next_finished l w) in E by (by apply Hb).
    injection E as <-. done.
  - exfalso. apply Hc. revert E. unfold SP.Next.
    destruct (SP.finished l); [discriminate |].
    destruct (SP.input l); [| by intros [= <- <-]].
    simpl. destruct (ListKVStores _ _ w) as [[[o |] [e |]] w1];
      try case_match; by intros [= <- <-].
Qed.

Lemma keys_Next_cursor (l : KP.t T) (w : World.t T) :
  let '(r, l', _) := KP.Next l w in
  KP.cursor l' <> KP.cursor l ->
  r = Returned true /\ KP.cursor l' <> "" /\ KP.finished l' = false.
Proof.
  destruct (KP.Next l w) as [[r l'] w'] eqn:E. intros Hc.
  destruct r as [b | p].
  - destruct (keys_Next_returned _ _ _ _ _ E) as (_ & Hb & Hcur).
    destruct (Hcur Hc) as [Hne Hf]. split_and!; try done.
    destruct b; [done |]. exfalso.
    rewrite (keys_Next_finished l w) in E by (by apply Hb).
    injection E as <-. done.
  - exfalso. apply Hc. revert E. unfold KP.Next.
    destruct (KP.finished l); [discriminate |].
    destruct (KP.input l); [| by intros [= <- <-]].
    simpl. destruct (ListKVStoreKeys _ _ w) as [[[o |] [e |]] w1];
      try case_match; by intros [= <- <-].
Qed.

Lemma stores_Next_input (l : SP.t T) (w : World.t T) :
  ListKVStoresInput.Limit <$> SP.input (snd (fst (SP.Next l w)))
  = ListKVStoresInput.Limit <$> SP.input l.
Proof.
  unfold SP.Next. destruct (SP.finished l); [done |].
  destruct (SP.input l) as [i |] eqn:Hi; [| simpl; by rewrite Hi].
  simpl. destruct (ListKVStores _ _ w) as [[[o |] [e |]] w1];
    try case_match; done.
Qed.

Lemma keys_Next_input (l : KP.t T) (w : World.t T) :
  (fun i => (ListKVStoreKeysInput.ID i, ListKVStoreKeysInput.Limit i))
    <$> KP.input (snd (fst (KP.Next l w)))
  = (fun i => (ListKVStoreKeysInput.ID i, ListKVStoreKeysInput.Limit i))
      <$> KP.input l.
Proof.
  unfold KP.Next. destruct (KP.finished l); [done |].
  destruct (KP.input l) as [i |] eqn:Hi; [| simpl; by rewrite Hi].
  simpl. destruct (ListKVStoreKeys _ _ w) as [[[o |] [e |]] w1];
    try case_match; done.
Qed.
End Cursor.

(** X13.  Next never writes the empty string into the cursor: whenever a
    call of Next leaves a cursor other than the one it found, the call
    returned true, the new cursor is not empty and the paginator has not
    finished.  So a paginator that finishes keeps the cursor of its last
    request.  Both paginators. *)
Theorem Next_never_empties_the_cursor :
  forall (T : Type) (w : World.t T),
    (forall l : SP.t T,
       let '(r, l', _) := SP.Next l w in
       SP.cursor l' <> SP.cursor l ->
       r = Returned true /\ SP.cursor l' <> "" /\ SP.finished l' = false)
    /\ (forall l : KP.t T,
       let '(r, l', _) := KP.Next l w in
       KP.cursor l' <> KP.cursor l ->
       r = Returned true /\ KP.cursor l' <> "" /\ KP.finished l' = false).
Proof.
  intros T w. split; intros l.
  - apply stores_Next_cursor.
  - apply keys_Next_cursor.
Qed.

Lemma Next_never_empties_the_cursor_witness :
  let '(r, l', _) :=
    SP.Next (NewListKVStoresPaginator demoClient
               (Some {| ListKVStoresInput.Cursor := "";
                        ListKVStoresInput.Limit := 0 |}))
      (demoWorld [reply 200 "p1"]) in
  SP.cursor l' = "c1" /\ r = Returned true /\ SP.finished l' = false.
Proof.
  pose proof (proj1 (Next_never_empties_the_cursor _
                       (demoWorld [reply 200 "p1"]))
                (NewListKVStoresPaginator demoClient
                   (Some {| ListKVStoresInput.Cursor := "";
                            ListKVStoresInput.Limit := 0 |}))) as H.
  assert (E : SP.cursor (snd (fst (SP.Next
                (NewListKVStoresPaginator demoClient
                   (Some {| ListKVStoresInput.Cursor := "";
                            ListKVStoresInput.Limit := 0 |}))
                (demoWorld [reply 200 "p1"])))) = "c1")
    by (vm_compute; reflexivity).
  destruct (SP.Next _ _) as [[r l'] w']. simpl in E.
  destruct H as (Hr & _ & Hf); [rewrite E; discriminate |].
  by split_and!.
Defined.

(** X14.  Next changes nothing of the input but its Cursor: the Limit,
    and for keys the store ID, are after the call what they were before
    it, whatever the outcome, and a nil input stays nil.  The one call an
    unfinished stores paginator issues carries that Limit as its limit
    parameter when it is not 0, and no limit parameter when it is 0. *)
Theorem Next_keeps_the_input :
  forall (T : Type) (w : World.t T),
    (forall l : SP.t T,
       ListKVStoresInput.Limit <$> SP.input (snd (fst (SP.Next l w)))
       = ListKVStoresInput.Limit <$> SP.input l)
    /\ (forall l : KP.t T,
       (fun i => (ListKVStoreKeysInput.ID i, ListKVStoreKeysInput.Limit i))
         <$> KP.input (snd (fst (KP.Next l w)))
       = (fun i => (ListKVStoreKeysInput.ID i, ListKVStoreKeysInput.Limit i))
           <$> KP.input l)
    /\ (forall (l : SP.t T) i,
       SP.finished l = false -> SP.input l = Some i ->
       (fun k => GoMap.lookup (callParams k) "limit")
         <$> issued w (snd (SP.Next l w))
       = [if (ListKVStoresInput.Limit i =? 0)%Z then None
          else Some (Itoa (ListKVStoresInput.Limit i))]).
Proof.
  intros T w. split_and!.
  - intros l. apply stores_Next_input.
  - intros l. apply keys_Next_input.
  - intros l i Hf Hi. rewrite (stores_Next_issued l w i Hf Hi).
    cbn [fmap list_fmap]. f_equal.
    unfold callParams, storesCall, callOptions.
    cbn [RequestOptions.Params RequestOptions.set_Params].
    by rewrite stores_filters_limit.
Qed.

Lemma Next_keeps_the_input_witness :
  (fun k => GoMap.lookup (callParams k) "limit")
    <$> issued (demoWorld [reply 200 "p1"])
          (snd (SP.Next (NewListKVStoresPaginator demoClient
                           (Some {| ListKVStoresInput.Cursor := "";
                                    ListKVStoresInput.Limit := 25 |}))
                  (demoWorld [reply 200 "p1"])))
  = [Some "25"].
Proof.
  apply (proj2 (proj2 (Next_keeps_the_input _ (demoWorld [reply 200 "p1"])))
           (NewListKVStoresPaginator demoClient
              (Some {| ListKVStoresInput.Cursor := "";
                       ListKVStoresInput.Limit := 25 |}))
           {| ListKVStoresInput.Cursor := ""; ListKVStoresInput.Limit := 25 |});
    reflexivity.
Defined.

(** ** Iterating to exhaustion over a scripted transport *)

Local Open Scope list_scope.

Section ScriptedRuns.
Context (c : Client.t (list (result Response.t))).
Hypothesis Htransport : Client.transport c = scripted.

Lemma scripted_ListKVStoreKeys i resp o log rest :
  ListKVStoreKeysInput.ID i <> "" ->
  Client.decodeListKVStoreKeysResponse c (Response.Body resp) = (Some o, None) ->
  ListKVStoreKeys c i {| World.calls := log; World.remote := Ok resp :: rest |}
  = ((Some o, None),
     {| World.calls := log ++ [keysCall i]; World.remote := rest |}).
Proof.
  intros Hid Hdec. rewrite (ListKVStoreKeys_unfold _ _ _ Hid), invoke_spec.
  cbn [World.calls World.remote fst snd]. rewrite Htransport.
  cbn [scripted fst snd]. by rewrite Hdec.
Qed.

Lemma scripted_Next_keys i cur e page resp o log rest :
  ListKVStoreKeysInput.ID i <> "" ->
  Client.decodeListKVStoreKeysResponse c (Response.Body resp) = (Some o, None) ->
  KP.Next (KP.mk c cur e false (Some i) page)
    {| World.calls := log; World.remote := Ok resp :: rest |}
  = (Returned true,
     KP.mk c (if String.eqb (keysNextCursor o) "" then cur
              else keysNextCursor o) e
       (String.eqb (keysNextCursor o) "")
       (Some (ListKVStoreKeysInput.set_Cursor cur i))
       (ListKVStoreKeysResponse.Data o),
     {| World.calls :=
          log ++ [keysCall (ListKVStoreKeysInput.set_Cursor cur i)];
        World.remote := rest |}).
Proof.
  intros Hid Hdec.
  rewrite (keys_Next_success _ _ i o
             {| World.calls :=
                  log ++ [keysCall (ListKVStoreKeysInput.set_Cursor cur i)];
                World.remote := rest |}); try done.
  - cbv zeta. unfold keysNextCursor. by destruct (String.eqb _ "").
  - by apply scripted_ListKVStoreKeys.
Qed.

Context (rlast : Response.t) (rest : list (result Response.t)).

Lemma scripted_run_stores (olast : ListKVStoresResponse.t)
    (os : list ListKVStoresResponse.t) :
  Client.decodeListKVStoresResponse c (Response.Body rlast)
  = (Some olast, None) ->
  storesNextCursor olast = "" ->
  forall rs i cur e page log,
    Forall2 (fun r o =>
               Client.decodeListKVStoresResponse c (Response.Body r)
               = (Some o, None)) rs os ->
    Forall (fun o => storesNextCursor o <> "") os ->
    advanceStores (length os + 2) (SP.mk c cur e false (Some i) page)
      {| World.calls := log;
         World.remote := (Ok <$> rs) ++ Ok rlast :: rest |}
    = (((fun o => (Returned true, ListKVStoresResponse.Data o))
          <$> (os ++ [olast])) ++ [(Returned false, [])],
       (let final := foldl (fun _ x => x) cur (storesNextCursor <$> os) in
        SP.mk c final e true
          (Some (ListKVStoresInput.set_Cursor final i)) []),
       {| World.calls :=
            log ++ ((fun x => storesCall
                               (Some (ListKVStoresInput.set_Cursor x i)))
                      <$> (cur :: (storesNextCursor <$> os)));
          World.remote := rest |}).
Proof.
  intros Hdl Hcl.
  induction os as [| o os' IH]; intros rs i cur e page log Hdec Hne.
  - apply Forall2_nil_inv_r in Hdec as ->.
    cbn [length Nat.add advanceStores fmap list_fmap app].
    rewrite (scripted_Next c Htransport _ _ _ _ rlast olast) by done.
    cbv zeta. fold (storesNextCursor olast). rewrite Hcl.
    change (String.eqb "" "") with true. cbv beta iota zeta.
    by rewrite stores_Next_finished.
  - apply Forall2_cons_inv_r in Hdec as (r & rs' & Hd & Hdec & ->).
    apply Forall_cons in Hne as [Hn Hne].
    cbn [length Nat.add advanceStores fmap list_fmap app].
    rewrite (scripted_Next c Htransport _ _ _ _ r o) by done.
    cbv zeta. fold (storesNextCursor o). rewrite (eqb_empty_false _ Hn).
    cbv beta iota zeta.
    rewrite (IH rs' _ _ _ _ _ Hdec Hne). cbn [foldl].
    by rewrite <- app_assoc.
Qed.

Lemma scripted_run_keys (olast : ListKVStoreKeysResponse.t)
    (os : list ListKVStoreKeysResponse.t) :
  Client.decodeListKVStoreKeysResponse c (Response.Body rlast)
  = (Some olast, None) ->
  keysNextCursor olast = "" ->
  forall rs i cur e page log,
    ListKVStoreKeysInput.ID i <> "" ->
    Forall2 (fun r o =>
               Client.decodeListKVStoreKeysResponse c (Response.Body r)
               = (Some o, None)) rs os ->
    Forall (fun o => keysNextCursor o <> "") os ->
    advanceKeys (length os + 2) (KP.mk c cur e false (Some i) page)
      {| World.calls := log;
         World.remote := (Ok <$> rs) ++ Ok rlast :: rest |}
    = (((fun o => (Returned true, ListKVStoreKeysResponse.Data o))
          <$> (os ++ [olast])) ++ [(Returned false, [])],
       (let final := foldl (fun _ x => x) cur (keysNextCursor <$> os) in
        KP.mk c final e true
          (Some (ListKVStoreKeysInput.set_Cursor final i)) []),
       {| World.calls :=
            log ++ ((fun x => keysCall (ListKVStoreKeysInput.set_Cursor x i))
                      <$> (cur :: (keysNextCursor <$> os)));
          World.remote := rest |}).
Proof.
  intros Hdl Hcl.
  induction os as [| o os' IH]; intros rs i cur e page log Hid Hdec Hne.
  - apply Forall2_nil_inv_r in Hdec as ->.
    cbn [length Nat.add advanceKeys fmap list_fmap app].
    rewrite (scripted_Next_keys _ _ _ _ rlast olast) by done.
    rewrite Hcl.
    change (String.eqb "" "") with true. cbv beta iota zeta.
    by rewrite keys_Next_finished.
  - apply Forall2_cons_inv_r in Hdec as (r & rs' & Hd & Hdec & ->).
    apply Forall_cons in Hne as [Hn Hne].
    cbn [length Nat.add advanceKeys fmap list_fmap app].
    rewrite (scripted_Next_keys _ _ _ _ r o) by done.
    rewrite (eqb_empty_false _ Hn).
    cbv beta iota zeta.
    rewrite (IH rs' (ListKVStoreKeysInput.set_Cursor cur i)
               _ _ _ _ Hid Hdec Hne). cbn [foldl].
    by rewrite <- app_assoc.
Qed.
End ScriptedRuns.

Lemma submitted_cursors_stores (i : ListKVStoresInput.t) (cs : list string) :
  submittedCursor
    <$> ((fun x => storesCall (Some (ListKVStoresInput.set_Cursor x i))) <$> cs)
  = cs.
Proof.
  induction cs as [| x cs IH]; [done |].
  cbn [fmap list_fmap] in *. by rewrite storesCall_cursor, IH.
Qed.

Lemma submitted_cursors_keys (i : ListKVStoreKeysInput.t) (cs : list string) :
  submittedCursor
    <$> ((fun x => keysCall (ListKVStoreKeysInput.set_Cursor x i)) <$> cs)
  = cs.
Proof.
  induction cs as [| x cs IH]; [done |].
  cbn [fmap list_fmap] in *. by rewrite keysCall_cursor, IH.
Qed.

(** X15.  Iterating a stores paginator to exhaustion visits every page
    once and in the order of the server, for any number of pages: over a
    scripted transport whose responses all carry a non-empty next_cursor
    but the last, the caller's loop on a new paginator returns true once
    per response with exactly the items of that response, then false
    with an empty page; the pages put end to end are the items of the
    responses put end to end, with nothing sorted, dropped or repeated.
    One call is issued per page, the first with the empty cursor and each
    later one with the next_cursor of the response before it; the answers
    scripted after the last page are not consumed, and Err stays nil. *)
Theorem stores_paginator_visits_every_page :
  forall (c : Client.t (list (result Response.t)))
         (i : ListKVStoresInput.t)
         (rs : list Response.t) (os : list ListKVStoresResponse.t)
         (rlast : Response.t) (olast : ListKVStoresResponse.t)
         (log : list Call) (rest : list (result Response.t)),
    Client.transport c = scripted ->
    Forall2 (fun r o =>
               Client.decodeListKVStoresResponse c (Response.Body r)
               = (Some o, None)) rs os ->
    Forall (fun o => storesNextCursor o <> "") os ->
    Client.decodeListKVStoresResponse c (Response.Body rlast)
    = (Some olast, None) ->
    storesNextCursor olast = "" ->
    let w0 := {| World.calls := log;
                 World.remote := (Ok <$> rs) ++ Ok rlast :: rest |} in
    let '(trace, l, w) :=
      advanceStores (length os + 2) (NewListKVStoresPaginator c (Some i)) w0 in
    trace = ((fun o => (Returned true, ListKVStoresResponse.Data o))
               <$> (os ++ [olast])) ++ [(Returned false, [])]
    /\ concat (snd <$> trace)
       = concat (ListKVStoresResponse.Data <$> (os ++ [olast]))
    /\ submittedCursor <$> issued w0 w = "" :: (storesNextCursor <$> os)
    /\ World.remote w = rest
    /\ SP.Err l = None /\ SP.finished l = true.
Proof.
  intros c i rs os rlast olast log rest Htr Hdec Hne Hdl Hcl w0. subst w0.
  unfold NewListKVStoresPaginator.
  rewrite (scripted_run_stores c Htr rlast rest olast os Hdl Hcl
             rs i "" None [] log Hdec Hne).
  split_and!; try done.
  - rewrite fmap_app, concat_app, <- list_fmap_compose. simpl.
    by rewrite app_nil_r.
  - rewrite issued_app. apply submitted_cursors_stores.
Qed.

Lemma stores_paginator_visits_every_page_witness :
  let '(trace, l, w) :=
    advanceStores 4
      (NewListKVStoresPaginator demoClient
         (Some {| ListKVStoresInput.Cursor := ""; ListKVStoresInput.Limit := 2 |}))
      (demoWorld [reply 200 "p1"; reply 200 "p2"; reply 200 "p3";
                  reply 200 "p1"]) in
  concat (snd <$> trace)
  = [demoStore "a"; demoStore "b"; demoStore "c"; demoStore "d"]
  /\ submittedCursor
       <$> issued (demoWorld [reply 200 "p1"; reply 200 "p2"; reply 200 "p3";
                              reply 200 "p1"]) w
     = [""; "c1"; "c2"]
  /\ World.remote w = [reply 200 "p1"].
Proof.
  pose proof (stores_paginator_visits_every_page demoClient
                {| ListKVStoresInput.Cursor := ""; ListKVStoresInput.Limit := 2 |}
                [ {| Response.StatusCode := 200; Response.Body := body "p1" |};
                  {| Response.StatusCode := 200; Response.Body := body "p2" |} ]
                [ {| ListKVStoresResponse.Data := [demoStore "a"; demoStore "b"];
                     ListKVStoresResponse.Meta := demoMeta "c1" |};
                  {| ListKVStoresResponse.Data := [demoStore "c"];
                     ListKVStoresResponse.Meta := demoMeta "c2" |} ]
                {| Response.StatusCode := 200; Response.Body := body "p3" |}
                {| ListKVStoresResponse.Data := [demoStore "d"];
                   ListKVStoresResponse.Meta := demoMeta "" |}
                [] [reply 200 "p1"] eq_refl) as H.
  cbn [length Nat.add] in H.
  change (demoWorld [reply 200 "p1"; reply 200 "p2"; reply 200 "p3";
                     reply 200 "p1"])
    with {| World.calls := [];
            World.remote :=
              (Ok <$> [ {| Response.StatusCode := 200; Response.Body := body "p1" |};
                        {| Response.StatusCode := 200; Response.Body := body "p2" |} ])
              ++ Ok {| Response.StatusCode := 200; Response.Body := body "p3" |}
                 :: [reply 200 "p1"] |}.
  destruct (advanceStores 4 _ _) as [[trace l] w].
  destruct H as (_ & Hc & Hs & Hr & _).
  - repeat constructor.
  - repeat constructor; discriminate.
  - reflexivity.
  - reflexivity.
  - by split_and!.
Defined.

(** X16.  The same for a keys paginator on a store with a non-empty ID:
    iterating to exhaustion visits every page once and in order, for any
    number of pages, with one call per page that submits the next_cursor
    of the page before it, and the keys of the pages put end to end are
    the keys of the responses put end to end. *)
Theorem keys_paginator_visits_every_page :
  forall (c : Client.t (list (result Response.t)))
         (i : ListKVStoreKeysInput.t)
         (rs : list Response.t) (os : list ListKVStoreKeysResponse.t)
         (rlast : Response.t) (olast : ListKVStoreKeysResponse.t)
         (log : list Call) (rest : list (result Response.t)),
    Client.transport c = scripted ->
    ListKVStoreKeysInput.ID i <> "" ->
    Forall2 (fun r o =>
               Client.decodeListKVStoreKeysResponse c (Response.Body r)
               = (Some o, None)) rs os ->
    Forall (fun o => keysNextCursor o <> "") os ->
    Client.decodeListKVStoreKeysResponse c (Response.Body rlast)
    = (Some olast, None) ->
    keysNextCursor olast = "" ->
    let w0 := {| World.calls := log;
                 World.remote := (Ok <$> rs) ++ Ok rlast :: rest |} in
    let '(trace, l, w) :=
      advanceKeys (length os + 2) (NewListKVStoreKeysPaginator c (Some i)) w0 in
    trace = ((fun o => (Returned true, ListKVStoreKeysResponse.Data o))
               <$> (os ++ [olast])) ++ [(Returned false, [])]
    /\ concat (snd <$> trace)
       = concat (ListKVStoreKeysResponse.Data <$> (os ++ [olast]))
    /\ submittedCursor <$> issued w0 w = "" :: (keysNextCursor <$> os)
    /\ Forall (fun k => exists ro,
                 k = CallGet ("/resources/stores/kv/"
                              +:+ ListKVStoreKeysInput.ID i +:+ "/keys")
                       (Some ro))
         (issued w0 w)
    /\ World.remote w = rest
    /\ KP.Err l = None /\ KP.finished l = true.
Proof.
  intros c i rs os rlast olast log rest Htr Hid Hdec Hne Hdl Hcl w0. subst w0.
  unfold NewListKVStoreKeysPaginator.
  rewrite (scripted_run_keys c Htr rlast rest olast os Hdl Hcl
             rs i "" None [] log Hid Hdec Hne).
  split_and!; try done.
  - rewrite fmap_app, concat_app, <- list_fmap_compose. simpl.
    by rewrite app_nil_r.
  - rewrite issued_app. apply submitted_cursors_keys.
  - rewrite issued_app. apply Forall_fmap, Forall_forall. intros x _.
    eexists. unfold keysCall. reflexivity.
Qed.

Lemma keys_paginator_visits_every_page_witness :
  let '(trace, l, w) :=
    advanceKeys 3
      (NewListKVStoreKeysPaginator demoClient
         (Some {| ListKVStoreKeysInput.Cursor := "";
                  ListKVStoreKeysInput.ID := "s1";
                  ListKVStoreKeysInput.Limit := 0 |}))
      (demoWorld [reply 200 "p1"; reply 200 "p3"]) in
  concat (snd <$> trace) = ["k1"; "k2"; "k3"]
  /\ submittedCursor
       <$> issued (demoWorld [reply 200 "p1"; reply 200 "p3"]) w
     = [""; "c1"]
  /\ World.remote w = [].
Proof.
  pose proof (keys_paginator_visits_every_page demoClient
                {| ListKVStoreKeysInput.Cursor := "";
                   ListKVStoreKeysInput.ID := "s1";
                   ListKVStoreKeysInput.Limit := 0 |}
                [ {| Response.StatusCode := 200; Response.Body := body "p1" |} ]
                [ {| ListKVStoreKeysResponse.Data := ["k1"; "k2"];
                     ListKVStoreKeysResponse.Meta := demoMeta "c1" |} ]
                {| Response.StatusCode := 200; Response.Body := body "p3" |}
                {| ListKVStoreKeysResponse.Data := ["k3"];
                   ListKVStoreKeysResponse.Meta := None |}
                [] [] eq_refl) as H.
  cbn [length Nat.add] in H.
  change (demoWorld [reply 200 "p1"; reply 200 "p3"])
    with {| World.calls := [];
            World.remote :=
              (Ok <$> [ {| Response.StatusCode := 200; Response.Body := body "p1" |} ])
              ++ Ok {| Response.StatusCode := 200; Response.Body := body "p3" |}
                 :: [] |}.
  destruct (advanceKeys 3 _ _) as [[trace l] w].
  destruct H as (_ & Hc & Hs & _ & Hr & _).
  - discriminate.
  - repeat constructor.
  - repeat constructor; discriminate.
  - reflexivity.
  - reflexivity.
  - by split_and!.
Defined.

(** * How the key operations compose over a remote side that keeps state *)

Section KeepingServer.
Context (c : Client.t (gmap string string)).
Hypothesis Htransport : Client.transport c = kvServer.
Hypothesis Hcheck :
  forall resp, Response.StatusCode resp = 200%Z ->
               snd (Client.checkResp c resp None) = None.

Lemma kv_Insert (i : InsertKVStoreKeyInput.t) (w : World.t (gmap string string)) :
  InsertKVStoreKeyInput.ID i <> "" -> InsertKVStoreKeyInput.Key i <> "" ->
  fst (InsertKVStoreKey c i w) = None
  /\ World.remote (snd (InsertKVStoreKey c i w))
     = <[keyPath (InsertKVStoreKeyInput.ID i) (InsertKVStoreKeyInput.Key i)
         := InsertKVStoreKeyInput.Value i]> (World.remote w).
Proof.
  intros Hid Hkey. unfold InsertKVStoreKey, Put.
  rewrite (eqb_empty_false _ Hid), (eqb_empty_false _ Hkey), invoke_spec.
  rewrite Htransport. cbn [kvServer reply fst snd World.remote
                             RequestOptions.Body default from_option id].
  split; [| done]. by apply Hcheck.
Qed.

Lemma kv_Get (i : GetKVStoreKeyInput.t) (w : World.t (gmap string string)) :
  GetKVStoreKeyInput.ID i <> "" -> GetKVStoreKeyInput.Key i <> "" ->
  fst (GetKVStoreKey c i w)
  = match World.remote w !! keyPath (GetKVStoreKeyInput.ID i)
                              (GetKVStoreKeyInput.Key i) with
    | Some v => (v, None)
    | None => ("", Some (HTTPError notFound))
    end
  /\ World.remote (snd (GetKVStoreKey c i w)) = World.remote w.
Proof.
  intros Hid Hkey. unfold GetKVStoreKey, Get.
  rewrite (eqb_empty_false _ Hid), (eqb_empty_false _ Hkey), invoke_spec.
  rewrite Htransport. cbn [kvServer].
  fold (keyPath (GetKVStoreKeyInput.ID i) (GetKVStoreKeyInput.Key i)).
  by destruct (World.remote w !! keyPath _ _).
Qed.

Lemma kv_Delete (i : DeleteKVStoreKeyInput.t) (w : World.t (gmap string string)) :
  DeleteKVStoreKeyInput.ID i <> "" -> DeleteKVStoreKeyInput.Key i <> "" ->
  fst (DeleteKVStoreKey c i w)
  = match World.remote w !! keyPath (DeleteKVStoreKeyInput.ID i)
                              (DeleteKVStoreKeyInput.Key i) with
    | Some _ => None
    | None => Some (HTTPError notFound)
    end
  /\ World.remote (snd (DeleteKVStoreKey c i w))
     = delete (keyPath (DeleteKVStoreKeyInput.ID i)
                 (DeleteKVStoreKeyInput.Key i)) (World.remote w).
Proof.
  intros Hid Hkey. unfold DeleteKVStoreKey, Delete.
  rewrite (eqb_empty_false _ Hid), (eqb_empty_false _ Hkey), invoke_spec.
  rewrite Htransport. cbn [kvServer].
  fold (keyPath (DeleteKVStoreKeyInput.ID i) (DeleteKVStoreKeyInput.Key i)).
  destruct (World.remote w !! keyPath _ _) eqn:E; simpl; [done |].
  split; [done |]. symmetry. by apply delete_id.
Qed.
End KeepingServer.

Lemma keyPath_inj (id key key' : string) :
  keyPath id key = keyPath id key' -> key = key'.
Proof.
  unfold keyPath. intros H.
  by repeat (apply (inj (String.app _)) in H).
Qed.

(** X17.  Insert then get is a round trip, and insert is an upsert: over
    a remote side that keeps what is put, whatever it held before, an
    InsertKVStoreKey with a non-empty ID and Key returns no error and the
    GetKVStoreKey of the same ID and Key that follows returns exactly the
    inserted value, the empty one included.  The two operations build the
    same path. *)
Theorem insert_then_get_returns_the_value :
  forall (c : Client.t (gmap string string)) (w : World.t (gmap string string))
         (id key v : string),
    Client.transport c = kvServer ->
    (forall resp, Response.StatusCode resp = 200%Z ->
                  snd (Client.checkResp c resp None) = None) ->
    id <> "" -> key <> "" ->
    let i := {| InsertKVStoreKeyInput.ID := id; InsertKVStoreKeyInput.Key := key;
                InsertKVStoreKeyInput.Value := v |} in
    let g := {| GetKVStoreKeyInput.ID := id; GetKVStoreKeyInput.Key := key |} in
    fst (InsertKVStoreKey c i w) = None
    /\ fst (GetKVStoreKey c g (snd (InsertKVStoreKey c i w))) = (v, None).
Proof.
  intros c w id key v Htr Hck Hid Hkey i g.
  destruct (kv_Insert c Htr Hck i w Hid Hkey) as [He Hw].
  split; [exact He |].
  rewrite (proj1 (kv_Get c Htr g _ Hid Hkey)), Hw. subst i g. simpl.
  by rewrite lookup_insert_eq.
Qed.

Lemma insert_then_get_returns_the_value_witness :
  fst (GetKVStoreKey kvClient
         {| GetKVStoreKeyInput.ID := "s1"; GetKVStoreKeyInput.Key := "k" |}
         (snd (InsertKVStoreKey kvClient
                 {| InsertKVStoreKeyInput.ID := "s1";
                    InsertKVStoreKeyInput.Key := "k";
                    InsertKVStoreKeyInput.Value := "" |}
                 {| World.calls := [];
                    World.remote :=
                      {[ "/resources/stores/kv/s1/keys/k" := "old" ]} |})))
  = ("", None).
Proof.
  apply (insert_then_get_returns_the_value kvClient
           {| World.calls := [];
              World.remote := {[ "/resources/stores/kv/s1/keys/k" := "old" ]} |}
           "s1" "k" "");
    [reflexivity | reflexivity | discriminate | discriminate].
Defined.

(** X18.  An insert touches one key only: over the same remote side,
    after an InsertKVStoreKey on a key of a store, GetKVStoreKey on any
    other key of that store returns what it returned before the insert. *)
Theorem insert_leaves_other_keys :
  forall (c : Client.t (gmap string string)) (w : World.t (gmap string string))
         (id key key' v : string),
    Client.transport c = kvServer ->
    (forall resp, Response.StatusCode resp = 200%Z ->
                  snd (Client.checkResp c resp None) = None) ->
    id <> "" -> key <> "" -> key' <> "" -> key' <> key ->
    let i := {| InsertKVStoreKeyInput.ID := id; InsertKVStoreKeyInput.Key := key;
                InsertKVStoreKeyInput.Value := v |} in
    let g := {| GetKVStoreKeyInput.ID := id; GetKVStoreKeyInput.Key := key' |} in
    fst (GetKVStoreKey c g (snd (InsertKVStoreKey c i w)))
    = fst (GetKVStoreKey c g w).
Proof.
  intros c w id key key' v Htr Hck Hid Hkey Hkey' Hne i g.
  destruct (kv_Insert c Htr Hck i w Hid Hkey) as [_ Hw].
  rewrite (proj1 (kv_Get c Htr g _ Hid Hkey')),
    (proj1 (kv_Get c Htr g w Hid Hkey')), Hw.
  subst i g. simpl. rewrite lookup_insert_ne; [done |].
  intros E. by apply keyPath_inj in E.
Qed.

Lemma insert_leaves_other_keys_witness :
  fst (GetKVStoreKey kvClient
         {| GetKVStoreKeyInput.ID := "s1"; GetKVStoreKeyInput.Key := "k2" |}
         (snd (InsertKVStoreKey kvClient
                 {| InsertKVStoreKeyInput.ID := "s1";
                    InsertKVStoreKeyInput.Key := "k";
                    InsertKVStoreKeyInput.Value := "v" |}
                 {| World.calls := [];
                    World.remote :=
                      {[ "/resources/stores/kv/s1/keys/k2" := "v2" ]} |})))
  = fst (GetKVStoreKey kvClient
           {| GetKVStoreKeyInput.ID := "s1"; GetKVStoreKeyInput.Key := "k2" |}
           {| World.calls := [];
              World.remote :=
                {[ "/resources/stores/kv/s1/keys/k2" := "v2" ]} |}).
Proof.
  apply (insert_leaves_other_keys kvClient
           {| World.calls := [];
              World.remote := {[ "/resources/stores/kv/s1/keys/k2" := "v2" ]} |}
           "s1" "k" "k2" "v");
    [reflexivity | reflexivity | discriminate | discriminate | discriminate
    | discriminate].
Defined.

(** X19.  Delete undoes insert: over the same remote side, the
    DeleteKVStoreKey that follows an InsertKVStoreKey of the same ID and
    Key returns no error, since the remote side answers 204; after it
    GetKVStoreKey returns the empty string with the error of the
    transport, and a second DeleteKVStoreKey returns that error too. *)
Theorem delete_after_insert_removes_the_key :
  forall (c : Client.t (gmap string string)) (w : World.t (gmap string string))
         (id key v : string),
    Client.transport c = kvServer ->
    (forall resp, Response.StatusCode resp = 200%Z ->
                  snd (Client.checkResp c resp None) = None) ->
    id <> "" -> key <> "" ->
    let i := {| InsertKVStoreKeyInput.ID := id; InsertKVStoreKeyInput.Key := key;
                InsertKVStoreKeyInput.Value := v |} in
    let d := {| DeleteKVStoreKeyInput.ID := id;
                DeleteKVStoreKeyInput.Key := key |} in
    let g := {| GetKVStoreKeyInput.ID := id; GetKVStoreKeyInput.Key := key |} in
    let w1 := snd (InsertKVStoreKey c i w) in
    let w2 := snd (DeleteKVStoreKey c d w1) in
    fst (DeleteKVStoreKey c d w1) = None
    /\ fst (GetKVStoreKey c g w2) = ("", Some (HTTPError notFound))
    /\ fst (DeleteKVStoreKey c d w2) = Some (HTTPError notFound).
Proof.
  intros c w id key v Htr Hck Hid Hkey i d g w1 w2.
  destruct (kv_Insert c Htr Hck i w Hid Hkey) as [_ Hw1]. fold w1 in Hw1.
  destruct (kv_Delete c Htr d w1 Hid Hkey) as [Hd Hw2]. fold w2 in Hw2.
  pose proof (proj1 (kv_Get c Htr g w2 Hid Hkey)) as Hg.
  pose proof (proj1 (kv_Delete c Htr d w2 Hid Hkey)) as Hd2.
  subst i d g. simpl in *.
  rewrite Hw1, lookup_insert_eq in Hd.
  rewrite Hw2, lookup_delete_eq in Hg, Hd2.
  by split_and!.
Qed.

Lemma delete_after_insert_removes_the_key_witness :
  let w1 := snd (InsertKVStoreKey kvClient
                   {| InsertKVStoreKeyInput.ID := "s1";
                      InsertKVStoreKeyInput.Key := "k";
                      InsertKVStoreKeyInput.Value := "v" |}
                   {| World.calls := [];
                      World.remote := (∅ : gmap string string) |}) in
  fst (DeleteKVStoreKey kvClient
         {| DeleteKVStoreKeyInput.ID := "s1"; DeleteKVStoreKeyInput.Key := "k" |}
         w1) = None.
Proof.
  apply (delete_after_insert_removes_the_key kvClient
           {| World.calls := []; World.remote := ∅ |} "s1" "k" "v");
    [reflexivity | reflexivity | discriminate | discriminate].
Defined.

(** * Identifiers in paths *)

Lemma append_not_empty (a b : string) : a <> "" -> a +:+ b <> "".
Proof. destruct a; [done |]. discriminate. Qed.

(** X20.  The ID and the Key go into the path as they are, with nothing
    escaped or refused, so a store operation whose ID ends in "/keys/"
    and a key name is the key operation: for non-empty id and key,
    DeleteKVStore with the ID id/keys/key does exactly what
    DeleteKVStoreKey does with that id and key, and GetKVStore with that
    ID issues the very call GetKVStoreKey issues. *)
Theorem store_operation_reaches_a_key :
  forall (T : Type) (c : Client.t T) (w : World.t T) (id key : string),
    id <> "" -> key <> "" ->
    DeleteKVStore c {| DeleteKVStoreInput.ID := id +:+ "/keys/" +:+ key |} w
    = DeleteKVStoreKey c
        {| DeleteKVStoreKeyInput.ID := id; DeleteKVStoreKeyInput.Key := key |} w
    /\ snd (GetKVStore c {| GetKVStoreInput.ID := id +:+ "/keys/" +:+ key |} w)
       = snd (GetKVStoreKey c
                {| GetKVStoreKeyInput.ID := id; GetKVStoreKeyInput.Key := key |} w)
    /\ issued w (snd (GetKVStore c
                        {| GetKVStoreInput.ID := id +:+ "/keys/" +:+ key |} w))
       = [CallGet (keyPath id key) None].
Proof.
  intros T c w id key Hid Hkey.
  pose proof (append_not_empty id ("/keys/" +:+ key) Hid) as Hne.
  split_and!.
  - unfold DeleteKVStore, DeleteKVStoreKey. simpl.
    by rewrite (eqb_empty_false _ Hne), (eqb_empty_false _ Hid),
      (eqb_empty_false _ Hkey).
  - unfold GetKVStore, GetKVStoreKey, Get. simpl.
    rewrite (eqb_empty_false _ Hne), (eqb_empty_false _ Hid),
      (eqb_empty_false _ Hkey), !invoke_spec.
    by repeat case_match.
  - unfold GetKVStore, Get. simpl.
    rewrite (eqb_empty_false _ Hne), invoke_spec.
    unfold keyPath. repeat case_match; simpl; apply issued_app.
Qed.

Lemma store_operation_reaches_a_key_witness :
  DeleteKVStore kvClient {| DeleteKVStoreInput.ID := "s1/keys/k" |}
    {| World.calls := [];
       World.remote := {[ "/resources/stores/kv/s1/keys/k" := "v" ]} |}
  = DeleteKVStoreKey kvClient
      {| DeleteKVStoreKeyInput.ID := "s1"; DeleteKVStoreKeyInput.Key := "k" |}
      {| World.calls := [];
         World.remote := {[ "/resources/stores/kv/s1/keys/k" := "v" ]} |}.
Proof.
  apply (store_operation_reaches_a_key _ kvClient
           {| World.calls := [];
              World.remote := {[ "/resources/stores/kv/s1/keys/k" := "v" ]} |}
           "s1" "k"); discriminate.
Defined.
